(** * User management: account lifecycle and user controllers

    A shallow embedding of [src/controllers/auth.controller.ts] and
    [src/controllers/user.ts].  The handlers are written in a small
    state-and-exception monad over an explicit world: the persistent
    stores, the response and collaborator-call log, and the oracles that
    stand for the random token generator and for collaborator failures. *)

From stdpp Require Import base option list gmap strings fin_maps.
From Stdlib Require Import ZArith Lia.

Local Open Scope string_scope.
Local Open Scope list_scope.
Local Open Scope Z_scope.

(** ** JavaScript values *)

Module Js.

(** The values that travel through request bodies, rows and error codes. *)
Inductive JsVal : Type :=
  | VUndef
  | VBool (b : bool)
  | VNum (n : Z)
  | VStr (s : string).

#[global] Instance JsVal_eq_dec : EqDecision JsVal.
Proof. solve_decision. Defined.

(** [a === b]: same type and same value, no coercion. *)
Definition strict_eq (a b : JsVal) : bool :=
  match a, b with
  | VUndef, VUndef => true
  | VBool x, VBool y => Bool.eqb x y
  | VNum x, VNum y => Z.eqb x y
  | VStr x, VStr y => String.eqb x y
  | _, _ => false
  end.

(** The condition of [if (v)]. *)
Definition truthy (v : JsVal) : bool :=
  match v with
  | VUndef => false
  | VBool b => b
  | VNum n => negb (Z.eqb n 0)
  | VStr s => negb (String.eqb s "")
  end.

(** Objects used as records or bags: property name to value.  Reading a
    property that is not there gives [undefined]. *)
Abbreviation Obj := (gmap string JsVal).

Definition get (o : Obj) (k : string) : JsVal := default VUndef (o !! k).

(** [Object.keys(o)]. *)
Definition keys (o : Obj) : list string := (map_to_list o).*1.

(** An object literal built from parallel arrays of names and values. *)
Definition of_arrays (fields : list string) (values : list JsVal) : Obj :=
  list_to_map (zip fields values).

End Js.
Export Js.

(** ** Enumerations *)

(** [SessionTokenType] of [types/auth]. *)
Inductive SessionTokenType : Type := Verification | Password.

#[global] Instance SessionTokenType_eq_dec : EqDecision SessionTokenType.
Proof. solve_decision. Defined.

(** Modelled from the spec: the declaration of [SessionTokenType] is not
    among the sources; the two members are stored in the [type] column as
    two distinct values. *)
Definition type_value (t : SessionTokenType) : JsVal :=
  match t with
  | Verification => VStr "verification"
  | Password => VStr "password"
  end.

(** Modelled from the spec: [Role] of [@typings/auth] is not among the
    sources; the spec lists the roles Standard and Admin. *)
Inductive Role : Type := Standard | Admin.

#[global] Instance Role_eq_dec : EqDecision Role.
Proof. solve_decision. Defined.

(** ** Requests, responses and the call log *)

Record Request : Type := mkRequest {
  body : Obj;              (* req.body *)
  params_id : string;      (* req.params.id *)
  params_token : string;   (* req.params.token *)
  userId : string;         (* req.userId, set by the session middleware *)
  role : Role;             (* req.role, set by the session middleware *)
  host : string            (* req.headers.host *)
}.

(** Response bodies. *)
Inductive Payload : Type :=
  | NoBody
  | Message (text : string)
  | GenericError             (* errorMessages.generic, GENERIC_ERROR *)
  | TokenBody (token : string)      (* { token } *)
  | NewTokenBody (token : string).  (* { newToken } *)

(** What an exception carries: [e.code] of a collaborator failure, or the
    [Error] the issuance loops build from it. *)
Inductive Exn : Type :=
  | Failure (code : JsVal)
  | TokenCreationError (code : JsVal)
  | TypeError (what : string).

Definition exn_code (e : Exn) : JsVal :=
  match e with
  | Failure c => c
  | TokenCreationError _ | TypeError _ => VUndef
  end.

Record Email : Type := mkEmail {
  subject : string;
  to : JsVal;
  from : string;
  greeting : JsVal;   (* the user name interpolated in the html *)
  link : string
}.

(** Calls to collaborators, with their arguments. *)
Inductive Call : Type :=
  | PoolConnect
  | ClientRelease
  | ClientQuery (sql : string)
  | UserCreate (username email password : JsVal) (role_id : Z) (name : JsVal)
  | UserFind (filter : Obj)
  | UserSetAttributes (user_id : JsVal) (attributes : Obj)
  | UserDelete (user_id : JsVal)
  | TokenCreate (user_id : JsVal) (token : string) (type : SessionTokenType)
  | TokenFind (filter : Obj)
  | TokenDelete (token : JsVal)
  | SmtpSend (mail : Email)
  | SignUpdated (claims : Obj).

Inductive Event : Type :=
  | ECall (c : Call)
  | ESend (status : Z) (payload : Payload)   (* res.status(n).send(..), res.json(..) *)
  | ERedirect (target : string)              (* res.redirect(..) *)
  | ECookie (value : string)                 (* res.cookie(name, value, options) *)
  | ELog (e : Exn).                          (* logger.log({level: "error", ..}) *)

(** ** The persistent stores *)

Module DB.

(** Modelled from the spec: the [db] package (connection pool, [User] and
    [Token] objects) is not among the sources.  The spec gives the User
    store as rows with unique identifier, username and email, and the
    Token store as rows with a unique token string, owner, type and
    creation time; [create] fails with a uniqueness violation, [find]
    filters by field values, [setAttributes] updates the rows of one user
    and the [delete] operations remove rows.  A transaction works on a
    private copy of the stores that replaces the committed ones at
    COMMIT and is dropped at ROLLBACK. *)
Record Stores : Type := mkStores {
  users : list Obj;
  tokens : list Obj
}.

(** Modelled from the spec: the committed stores, and the private copy of
    the transaction that is open on the client, if any. *)
Record Database : Type := mkDatabase {
  committed : Stores;
  tx : option Stores
}.

(** Modelled from the spec: the [e.code] of a uniqueness violation, the
    SQLSTATE string that the loop of signup tests for. *)
Definition unique_violation : JsVal := VStr "23505".

(** Modelled from the spec: the stores a statement sees, on the client of
    the transaction or on the pool. *)
Definition view (on_client : bool) (d : Database) : Stores :=
  if on_client then default (committed d) (tx d) else committed d.

(** Modelled from the spec: a statement changes the copy of the open
    transaction when it runs on its client, the committed stores otherwise. *)
Definition update (on_client : bool) (f : Stores → Stores) (d : Database) : Database :=
  match on_client, tx d with
  | true, Some st => mkDatabase (committed d) (Some (f st))
  | _, _ => mkDatabase (f (committed d)) (tx d)
  end.

(** Modelled from the spec: BEGIN opens a transaction on a copy. *)
Definition begin (d : Database) : Database :=
  mkDatabase (committed d) (Some (committed d)).

(** Modelled from the spec: COMMIT makes the copy the committed stores. *)
Definition commit (d : Database) : Database :=
  mkDatabase (default (committed d) (tx d)) None.

(** Modelled from the spec: ROLLBACK drops the copy. *)
Definition rollback (d : Database) : Database :=
  mkDatabase (committed d) None.

(** Modelled from the spec: a row passes a filter when its listed fields
    have the listed values. *)
Definition matches (filter : Obj) (row : Obj) : bool :=
  forallb (λ kv, strict_eq (get row kv.1) kv.2) (map_to_list filter).

(** Modelled from the spec: [findUsers], [findTokens] give the rows that
    pass the filter, in store order. *)
Definition find (filter : Obj) (rows : list Obj) : list Obj :=
  List.filter (matches filter) rows.

(** Modelled from the spec: some row has this value in this unique field. *)
Definition has (field : string) (v : JsVal) (rows : list Obj) : bool :=
  existsb (λ row, strict_eq (get row field) v) rows.

(** Modelled from the spec: the row of a new user, not verified yet. *)
Definition new_user (id : string) (username email password : JsVal)
    (role_id : Z) (name : JsVal) : Obj :=
  {[ "user_id" := VStr id; "username" := username; "email" := email;
     "password" := password; "role_id" := VNum role_id; "name" := name;
     "verified" := VBool false ]}.

(** Modelled from the spec: the row of a new token, stamped with its
    creation time. *)
Definition new_token (user_id : JsVal) (token : string) (type : SessionTokenType)
    (now : Z) : Obj :=
  {[ "token" := VStr token; "user_id" := user_id; "type" := type_value type;
     "created_at" := VNum now ]}.

(** Modelled from the spec: insertion of a user row. *)
Definition add_user (row : Obj) (st : Stores) : Stores :=
  mkStores (users st ++ [row]) (tokens st).

(** Modelled from the spec: insertion of a token row. *)
Definition add_token (row : Obj) (st : Stores) : Stores :=
  mkStores (users st) (tokens st ++ [row]).

(** Modelled from the spec: [setAttributes] overwrites the given
    attributes in the rows of the user [id]. *)
Definition set_attributes (id : JsVal) (attributes : Obj) (st : Stores) : Stores :=
  mkStores
    (map (λ row, if strict_eq (get row "user_id") id then attributes ∪ row else row)
       (users st))
    (tokens st).

(** Modelled from the spec: [deleteUser] removes the rows of the user [id]. *)
Definition delete_user (id : JsVal) (st : Stores) : Stores :=
  mkStores (List.filter (λ row, negb (strict_eq (get row "user_id") id)) (users st))
    (tokens st).

(** Modelled from the spec: [deleteToken] removes the rows of this token
    value. *)
Definition delete_token (token : JsVal) (st : Stores) : Stores :=
  mkStores (users st)
    (List.filter (λ row, negb (strict_eq (get row "token") token)) (tokens st)).

End DB.

(** ** The world and the handler monad *)

(** What the handlers cannot decide themselves: the token handler and
    the password hasher, the identifiers the User store hands out, the
    sender address, and a fault plan that says which collaborator call
    (counted from the start of the run) fails and with which [e.code]. *)
Record Collaborators : Type := mkCollaborators {
  generateShortToken : nat → string;            (* the n-th draw *)
  generateUserAuthToken : Obj → Request → string;
  generateUpdatedUserAuthToken : Request → Obj → string;
  bcrypt_hash : string → string;                (* bcrypt.hash(p, 10) *)
  fresh_user_id : nat → string;
  hostAddress : string;                         (* smtpService.hostAddress *)
  TTL : Z;                                      (* lifetime of a password token *)
  fault : nat → option JsVal
}.

Record State : Type := mkState {
  db : DB.Database;
  clock : Z;                       (* Date.now() *)
  ticks : nat;                     (* collaborator calls made so far *)
  draws : nat;                     (* short tokens generated so far *)
  serial : nat;                    (* user identifiers handed out so far *)
  out : list Event;                (* oldest first *)
  transactionInProgress : bool     (* the local variable of signup *)
}.

Definition set_db (f : DB.Database → DB.Database) (s : State) : State :=
  mkState (f (db s)) (clock s) (ticks s) (draws s) (serial s) (out s)
    (transactionInProgress s).

Definition emit (e : Event) (s : State) : State :=
  mkState (db s) (clock s) (ticks s) (draws s) (serial s) (out s ++ [e])
    (transactionInProgress s).

Definition tick (s : State) : State :=
  mkState (db s) (clock s) (S (ticks s)) (draws s) (serial s) (out s)
    (transactionInProgress s).

Definition next_draw (s : State) : State :=
  mkState (db s) (clock s) (ticks s) (S (draws s)) (serial s) (out s)
    (transactionInProgress s).

Definition next_serial (s : State) : State :=
  mkState (db s) (clock s) (ticks s) (draws s) (S (serial s)) (out s)
    (transactionInProgress s).

Definition set_flag (b : bool) (s : State) : State :=
  mkState (db s) (clock s) (ticks s) (draws s) (serial s) (out s) b.

(** A run returns, throws, or has not finished within its fuel. *)
Inductive Res (A : Type) : Type :=
  | Ok (a : A) (s : State)
  | Throw (e : Exn) (s : State)
  | Diverge.
Arguments Ok {A} a s.
Arguments Throw {A} e s.
Arguments Diverge {A}.

Definition M (A : Type) : Type := State → Res A.

#[global] Instance M_ret : MRet M := λ A a s, Ok a s.

#[global] Instance M_bind : MBind M := λ A B f m s,
  match m s with
  | Ok a s' => f a s'
  | Throw e s' => Throw e s'
  | Diverge => Diverge
  end.

Definition throw {A} (e : Exn) : M A := λ s, Throw e s.

Definition diverge {A} : M A := λ _, Diverge.

Definition effect (f : State → State) : M unit := λ s, Ok tt (f s).

Definition read {A} (f : State → A) : M A := λ s, Ok (f s) s.

(** [try { body } catch (e) { handler e }]. *)
Definition try_catch {A} (body : M A) (handler : Exn → M A) : M A := λ s,
  match body s with
  | Throw e s' => handler e s'
  | r => r
  end.

(** [try { body } finally { cleanup }]: the cleanup runs on every exit, and
    an exception of the cleanup replaces the outcome of the body. *)
Definition try_finally {A} (body : M A) (cleanup : M unit) : M A := λ s,
  match body s with
  | Ok a s' => match cleanup s' with
               | Ok _ s'' => Ok a s''
               | Throw e s'' => Throw e s''
               | Diverge => Diverge
               end
  | Throw e s' => match cleanup s' with
                  | Ok _ s'' => Throw e s''
                  | Throw e' s'' => Throw e' s''
                  | Diverge => Diverge
                  end
  | Diverge => Diverge
  end.

(** The response object. *)
Definition send (status : Z) (p : Payload) : M unit := effect (emit (ESend status p)).
Definition redirect (target : string) : M unit := effect (emit (ERedirect target)).
Definition cookie (value : string) : M unit := effect (emit (ECookie value)).
Definition log (e : Exn) : M unit := effect (emit (ELog e)).

Section Collaborators.

Context (E : Collaborators).

(** A collaborator call: it is logged, and it fails when the fault plan
    says so; otherwise it does its work. *)
Definition call {A} (c : Call) (work : M A) : M A := λ s,
  let s1 := tick (emit (ECall c) s) in
  match fault E (ticks s) with
  | Some code => Throw (Failure code) s1
  | None => work s1
  end.

(** [tokenHandler.generateShortToken()]. *)
Definition shortToken : M string := λ s,
  Ok (generateShortToken E (draws s)) (next_draw s).

(** [bcrypt.hash(v, 10)]: the hasher takes strings only. *)
Definition bcrypt (v : JsVal) : M JsVal :=
  match v with
  | VStr p => mret (VStr (bcrypt_hash E p))
  | _ => throw (TypeError "data must be a string")
  end.

(** Modelled from the spec: [tokenHandler.isPasswordTokenExpired] is not
    among the sources.  The spec has it a function of [now - createdAt]
    against the fixed TTL: a token is redeemable exactly while
    [now - createdAt < TTL]. *)
Definition isPasswordTokenExpired (token : Obj) : M bool := λ s,
  Ok (match get token "created_at" with
      | VNum t => negb (clock s - t <? TTL E)
      | _ => true
      end) s.

(** Modelled from the spec: [db.pool.connect()] borrows a client. *)
Definition pool_connect : M unit := call PoolConnect (mret tt).

(** Modelled from the spec: [client.release()] gives it back. *)
Definition client_release : M unit := call ClientRelease (mret tt).

(** Modelled from the spec: [client.query(sql)] for the three transaction
    statements that signup issues. *)
Definition client_query (sql : string) : M unit :=
  call (ClientQuery sql)
    (effect (set_db (if String.eqb sql "BEGIN" then DB.begin
                     else if String.eqb sql "COMMIT" then DB.commit
                     else if String.eqb sql "ROLLBACK" then DB.rollback
                     else id))).

(** Modelled from the spec: [User.create(..)] inserts a row with a fresh
    identifier and answers with it, or fails with a uniqueness violation
    on the username or the email. *)
Definition User_create (username email password : JsVal) (role_id : Z)
    (name : JsVal) (on_client : bool) : M (list Obj) :=
  call (UserCreate username email password role_id name) (λ s,
    let st := DB.view on_client (db s) in
    if DB.has "username" username (DB.users st) || DB.has "email" email (DB.users st)
    then Throw (Failure DB.unique_violation) s
    else
      let row := DB.new_user (fresh_user_id E (serial s)) username email password
                   role_id name in
      Ok [row] (next_serial (set_db (DB.update on_client (DB.add_user row)) s))).

(** Modelled from the spec: [User.findUsers(fields, values)], on the pool. *)
Definition User_findUsers (filter : Obj) : M (list Obj) :=
  call (UserFind filter) (read (λ s, DB.find filter (DB.users (DB.view false (db s))))).

(** Modelled from the spec: [User.setAttributes], on the pool; the two
    controllers pass the attributes as parallel arrays or as one object. *)
Definition User_setAttributes (user_id : JsVal) (attributes : Obj) : M unit :=
  call (UserSetAttributes user_id attributes)
    (effect (set_db (DB.update false (DB.set_attributes user_id attributes)))).

(** Modelled from the spec: [User.deleteUser(id)], on the pool. *)
Definition User_deleteUser (user_id : JsVal) : M unit :=
  call (UserDelete user_id) (effect (set_db (DB.update false (DB.delete_user user_id)))).

(** Modelled from the spec: [Token.create(..)] inserts a row, or fails with
    a uniqueness violation on the token value. *)
Definition Token_create (user_id : JsVal) (token : string) (type : SessionTokenType)
    (on_client : bool) : M unit :=
  call (TokenCreate user_id token type) (λ s,
    let st := DB.view on_client (db s) in
    if DB.has "token" (VStr token) (DB.tokens st)
    then Throw (Failure DB.unique_violation) s
    else Ok tt (set_db (DB.update on_client
                          (DB.add_token (DB.new_token user_id token type (clock s)))) s)).

(** Modelled from the spec: [Token.findTokens(fields, values)], on the pool. *)
Definition Token_findTokens (filter : Obj) : M (list Obj) :=
  call (TokenFind filter) (read (λ s, DB.find filter (DB.tokens (DB.view false (db s))))).

(** Modelled from the spec: [Token.deleteToken(token)], on the pool. *)
Definition Token_deleteToken (token : JsVal) : M unit :=
  call (TokenDelete token) (effect (set_db (DB.update false (DB.delete_token token)))).

(** Modelled from the spec: [smtpService.sendEmail(options)] acknowledges
    or fails. *)
Definition smtp_sendEmail (mail : Email) : M unit := call (SmtpSend mail) (mret tt).

End Collaborators.

(** ** [controllers/auth.controller.ts] *)

Module AuthController.
Section Handlers.

Context (E : Collaborators).

Definition sendVerificationEmail (req : Request) (user : Obj) (token : string) : M unit :=
  let link := "http://" +:+ host req +:+ "/api/auth/verify/" +:+ token in
  smtp_sendEmail E
    (mkEmail "Account Verification Request" (get user "email") (hostAddress E)
       (get user "username") link).

(** The [while (emailVerificationToken === undefined)] loop of [signup]:
    one round per unit of fuel. *)
Fixpoint signup_issue (fuel : nat) (user_id : JsVal) : M string :=
  match fuel with
  | O => diverge
  | S fuel' =>
      token ← shortToken E;
      try_catch
        (Token_create E user_id token Verification true;; mret token)
        (λ e,
           if strict_eq (exn_code e) (VStr "23505")
           then signup_issue fuel' user_id
           else throw (TokenCreationError (exn_code e)))
  end.

(** POST /api/auth/signup *)
Definition signup (fuel : nat) (req : Request) : M unit :=
  effect (set_flag false);;
  pool_connect E;;
  try_finally
    (try_catch
       (let username := get (body req) "username" in
        let email := get (body req) "email" in
        let password := get (body req) "password" in
        let name := get (body req) "name" in
        if strict_eq username VUndef || strict_eq email VUndef
           || strict_eq password VUndef || strict_eq name VUndef
        then send 400 (Message "Body must include username, email, password, and name")
        else
          hashedPassword ← bcrypt E password;
          client_query E "BEGIN";;
          effect (set_flag true);;
          userResponse ← User_create E username email hashedPassword 1 name true;
          match userResponse with
          | [] => throw (TypeError "newUser is undefined")
          | newUser :: _ =>
              emailVerificationToken ← signup_issue fuel (get newUser "user_id");
              sendVerificationEmail req newUser emailVerificationToken;;
              client_query E "COMMIT";;
              effect (set_flag false);;
              send 204 NoBody
          end)
       (λ err, log err;; send 500 GenericError))
    (inProgress ← read transactionInProgress;
     (if inProgress : bool then client_query E "ROLLBACK" else mret tt);;
     client_release E).

(** GET api/auth/verify/:token *)
Definition verify (req : Request) : M unit :=
  try_catch
    (verifyTokenResponse ← Token_findTokens E
       (of_arrays ["token"; "type"] [VStr (params_token req); type_value Verification]);
     match verifyTokenResponse with
     | [] => redirect "/login"
     | verifyToken :: _ =>
         userResponse ← User_findUsers E
           (of_arrays ["user_id"] [get verifyToken "user_id"]);
         match userResponse with
         | [] => send 500 GenericError
         | user :: _ =>
             User_setAttributes E (get user "user_id")
               (of_arrays ["verified"] [VBool true]);;
             Token_deleteToken E (get verifyToken "token");;
             redirect "/login"
         end
     end)
    (λ err, log err;; send 500 GenericError).

(** The [while (resetPasswordToken === undefined)] loop of
    [sendPasswordResetEmail]. *)
Fixpoint recovery_issue (fuel : nat) (user_id : JsVal) : M string :=
  match fuel with
  | O => diverge
  | S fuel' =>
      token ← shortToken E;
      try_catch
        (Token_create E user_id token Password false;; mret token)
        (λ e,
           if strict_eq (exn_code e) (VNum 23505)
           then recovery_issue fuel' user_id
           else throw (TokenCreationError (exn_code e)))
  end.

Definition sendPasswordResetEmail (fuel : nat) (req : Request) (user : Obj) : M unit :=
  resetPasswordToken ← recovery_issue fuel (get user "user_id");
  let link := "http://" +:+ host req +:+ "/api/auth/recovery/verify/"
              +:+ resetPasswordToken in
  smtp_sendEmail E
    (mkEmail "Password Recovery Request" (get user "email") (hostAddress E)
       (get user "username") link).

(** POST api/auth/recovery *)
Definition recovery (fuel : nat) (req : Request) : M unit :=
  try_catch
    (let email := get (body req) "email" in
     if strict_eq email VUndef
     then send 400 (Message "Body must include email")
     else
       userResponse ← User_findUsers E (of_arrays ["email"] [email]);
       match userResponse with
       | [] => redirect "/recover/sent"
       | user :: _ =>
           sendPasswordResetEmail fuel req user;;
           redirect "/recover/sent"
       end)
    (λ err, log err;; send 500 GenericError).

(** GET api/auth/recovery/verify/:token *)
Definition verifyRecovery (req : Request) : M unit :=
  try_catch
    (tokenResponse ← Token_findTokens E
       (of_arrays ["token"; "type"] [VStr (params_token req); type_value Password]);
     match tokenResponse with
     | [] => send 400 GenericError
     | token :: _ =>
         expired ← isPasswordTokenExpired E token;
         if expired : bool
         then send 400 GenericError
         else redirect ("/recover/" +:+ params_token req)
     end)
    (λ err, log err;; send 500 GenericError).

(** POST api/auth/recovery/:token *)
Definition processRecovery (req : Request) : M unit :=
  let password := get (body req) "password" in
  if strict_eq password VUndef
  then send 400 (Message "Body must include password")
  else
    try_catch
      (tokenResponse ← Token_findTokens E
         (of_arrays ["token"; "type"] [VStr (params_token req); type_value Password]);
       match tokenResponse with
       | [] => send 400 GenericError
       | token :: _ =>
           expired ← isPasswordTokenExpired E token;
           if expired : bool
           then send 400 GenericError
           else
             userResponse ← User_findUsers E
               (of_arrays ["user_id"] [get token "user_id"]);
             match userResponse with
             | [] => send 500 GenericError
             | user :: _ =>
                 hashedPassword ← bcrypt E password;
                 User_setAttributes E (get token "user_id")
                   (of_arrays ["password"] [hashedPassword]);;
                 Token_deleteToken E (VStr (params_token req));;
                 let authToken := generateUserAuthToken E user req in
                 cookie authToken;;
                 send 200 (TokenBody authToken)
             end
       end)
      (λ err, log err;; send 500 GenericError).

End Handlers.
End AuthController.

(** ** [controllers/user.ts] *)

Module UserController.
Section Handlers.

Context (E : Collaborators).

Definition profile_attributes : list string := ["username"; "email"; "name"; "password"].
Definition admin_attributes : list string := ["roleId"].

(** One round of the [forEach] over the keys of the body. *)
Definition collect_step (req : Request) (acc : Obj * Obj) (attr : string) : Obj * Obj :=
  let newAttributes :=
    if bool_decide (attr ∈ profile_attributes)
    then <[attr := get (body req) attr]> acc.1 else acc.1 in
  let newAdminAttributes :=
    if bool_decide (attr ∈ admin_attributes)
    then <["role_id" := get (body req) attr]> acc.2 else acc.2 in
  (newAttributes, newAdminAttributes).

Definition collect (req : Request) : Obj * Obj :=
  foldl (collect_step req) (∅, ∅) (keys (body req)).

(** PATCH /api/user/:id *)
Definition updateUser (req : Request) : M unit :=
  try_catch
    (let isClientUser := String.eqb (userId req) (params_id req) in
     let collected := collect req in
     let newAdminAttributes := collected.2 in
     newAttributes ←
       (if negb (strict_eq (get collected.1 "password") VUndef)
        then hashed ← bcrypt E (get collected.1 "password");
             mret (<["password" := hashed]> collected.1)
        else mret collected.1);
     (if isClientUser && negb (Nat.eqb (size newAttributes) 0)
      then User_setAttributes E (VStr (params_id req)) newAttributes
      else mret tt);;
     (if bool_decide (role req = Admin) && negb (Nat.eqb (size newAdminAttributes) 0)
      then User_setAttributes E (VStr (params_id req)) newAdminAttributes
      else mret tt);;
     if truthy (get newAttributes "username")
     then
       newToken ← call E (SignUpdated newAttributes)
                    (mret (generateUpdatedUserAuthToken E req newAttributes));
       cookie newToken;;
       send 200 (NewTokenBody newToken)
     else send 204 NoBody)
    (λ err, log err;; send 500 GenericError).

(** DELETE /api/user/:id *)
Definition deleteUser (req : Request) : M unit :=
  try_catch
    (User_deleteUser E (VStr (params_id req));;
     send 204 NoBody)
    (λ err, log err;; send 500 GenericError).

End Handlers.
End UserController.

(** ** Observations on a run *)

(** The part of the log that the client sees. *)
Definition is_response (e : Event) : bool :=
  match e with
  | ESend _ _ | ERedirect _ | ECookie _ => true
  | _ => false
  end.

Definition responses (l : list Event) : list Event := List.filter is_response l.

(** What a run from [s] to [s'] added to the log. *)
Definition since (s s' : State) : list Event := drop (length (out s)) (out s').

(** The attribute bags handed to [User.setAttributes], in call order. *)
Definition persisted (l : list Event) : list (JsVal * Obj) :=
  omap (λ e, match e with
             | ECall (UserSetAttributes id attributes) => Some (id, attributes)
             | _ => None
             end) l.

(** The calls that [updateUser] may make to [User.setAttributes]: the
    profile bag when the caller is the target, then the role bag when the
    caller is an administrator; an empty bag is not sent. *)
Definition gated_calls (req : Request) (profile admin : Obj) : list (JsVal * Obj) :=
  (if bool_decide (userId req = params_id req ∧ profile ≠ ∅)
   then [(VStr (params_id req), profile)] else [])
  ++ (if bool_decide (role req = Admin ∧ admin ≠ ∅)
      then [(VStr (params_id req), admin)] else []).

(** The profile bag as [updateUser] sends it: the password, when there is
    one, is replaced by its hash. *)
Definition sent_profile (E : Collaborators) (req : Request) : Obj :=
  match get (UserController.collect req).1 "password" with
  | VStr p => <["password" := VStr (bcrypt_hash E p)]> (UserController.collect req).1
  | _ => (UserController.collect req).1
  end.

(** The body has no password, or one that the hasher takes. *)
Definition password_usable (req : Request) : Prop :=
  get (body req) "password" = VUndef ∨ ∃ p, get (body req) "password" = VStr p.

(** What the issuance loop of signup does to the world: it works in the
    open transaction and logs calls only. *)
Definition in_transaction (s s1 : State) : Prop :=
  DB.committed (db s1) = DB.committed (db s)
  ∧ is_Some (DB.tx (db s1))
  ∧ transactionInProgress s1 = transactionInProgress s
  ∧ ∃ l, out s1 = out s ++ l ∧ responses l = [].

(** The user insert of signup was reached. *)
Definition insert_reached (l : list Event) : Prop :=
  ∃ username email password role_id name,
    ECall (UserCreate username email password role_id name) ∈ l.

(** How a signup that did not succeed ends: the committed stores are as
    before, no transaction is open, and when the insert had been reached
    the log ends with the error response followed by the rollback. *)
Definition rolled_back (s s' : State) : Prop :=
  DB.committed (db s') = DB.committed (db s)
  ∧ DB.tx (db s') = None
  ∧ (insert_reached (since s s') →
     ∃ err, [ELog err; ESend 500 GenericError; ECall (ClientQuery "ROLLBACK");
             ECall ClientRelease] `suffix_of` since s s').

(** Index of the first event that satisfies [p]. *)
Fixpoint position (p : Event → bool) (l : list Event) : option nat :=
  match l with
  | [] => None
  | e :: l' => if p e then Some O else S <$> position p l'
  end.

Definition is_rollback (e : Event) : bool :=
  match e with
  | ECall (ClientQuery sql) => String.eqb sql "ROLLBACK"
  | _ => false
  end.

Definition is_error_response (e : Event) : bool :=
  match e with
  | ESend 500 GenericError => true
  | _ => false
  end.

Definition no_faults (E : Collaborators) : Prop := ∀ n, fault E n = None.

(** A token row of the given value and type is in the store. *)
Definition issued (st : DB.Stores) (row : Obj) (value : string) (type : SessionTokenType)
    : Prop :=
  row ∈ DB.tokens st ∧ get row "token" = VStr value ∧ get row "type" = type_value type.

(** The uniqueness constraint of the Token store. *)
Definition unique_tokens (st : DB.Stores) : Prop :=
  NoDup (map (λ row, get row "token") (DB.tokens st)).

Definition has_user (st : DB.Stores) (id : JsVal) : Prop :=
  ∃ user, user ∈ DB.users st ∧ get user "user_id" = id.

Definition token_filter (value : string) (type : SessionTokenType) : Obj :=
  of_arrays ["token"; "type"] [VStr value; type_value type].

(** ** Sample worlds *)

Module Sample.

Definition world (users tokens : list Obj) (now : Z) : State :=
  mkState (DB.mkDatabase (DB.mkStores users tokens) None) now 0 0 0 [] false.

(** Short tokens are drawn from [draw]; the call numbered [n] fails when
    [plan n] gives a code. *)
Definition env (draw : nat → string) (plan : nat → option JsVal) : Collaborators :=
  mkCollaborators draw (λ user _, "session") (λ _ claims, "session'")
    (λ p, "#" +:+ p) (λ n, if Nat.eqb n 0 then "u1" else "u2") "noreply@example.org"
    3600 plan.

Definition calm : nat → option JsVal := λ _, None.

Definition fail_at (n : nat) (code : JsVal) : nat → option JsVal :=
  λ k, if Nat.eqb k n then Some code else None.

Definition al : Obj :=
  DB.new_user "7" (VStr "al") (VStr "a@x.com") (VStr "#p") 1 (VStr "Al").

Definition request (b : Obj) (id token caller : string) (r : Role) : Request :=
  mkRequest b id token caller r "example.org".

(** The short tokens of [l] in turn, and its last one from then on. *)
Definition draws_from (l : list string) : nat → string :=
  λ n, nth n l (List.last l "t").

Definition taken : Obj := DB.new_token (VStr "7") "t0" Verification 0.

Definition recover_al : Request :=
  request {[ "email" := VStr "a@x.com" ]} "" "" "" Standard.

Definition signup_al : Request :=
  request {[ "username" := VStr "al"; "email" := VStr "a@x.com";
             "password" := VStr "p"; "name" := VStr "Al" ]} "" "" "" Standard.

(** No fault, and the draws "t0", "t1", "t1", .. *)
Definition quiet : Collaborators := env (draws_from ["t0"; "t1"]) calm.

(** The mail service fails: it is call 4 of a signup without collisions. *)
Definition mail_down : Collaborators := env (λ _, "t0") (fail_at 4 VUndef).

(** Every draw is "t0". *)
Definition stuck : Collaborators := env (λ _, "t0") calm.

Definition reset : Obj := DB.new_token (VStr "7") "r0" Password 0.

Definition empty : State := world [] [] 1000.
Definition with_al : State := world [al] [] 1000.
Definition with_taken : State := world [al] [taken] 1000.
Definition with_reset : State := world [al] [reset] 1000.

Definition verify_t0 : Request := request ∅ "" "t0" "" Standard.

Definition reset_r0 : Request :=
  request {[ "password" := VStr "new" ]} "" "r0" "" Standard.

Definition recover_nobody : Request :=
  request {[ "email" := VStr "nobody@x.com" ]} "" "" "" Standard.

Definition rename_al : Request :=
  request {[ "username" := VStr "al" ]} "7" "" "7" Standard.

Definition rename_bob : Request :=
  request {[ "username" := VStr "bob" ]} "7" "" "7" Standard.

(** An administrator, not the target, sends a role, a name and a field
    that is in neither attribute set. *)
Definition promote_al : Request :=
  request {[ "roleId" := VNum 2; "name" := VStr "Eve"; "verified" := VBool true ]}
    "7" "" "9" Admin.

Definition delete_al : Request := request ∅ "7" "" "9" Standard.

End Sample.

(** ** The other handlers of the two controllers *)

Module Session.
Section Handlers.

Context (E : Collaborators).

(** [bcrypt.compareSync(data, hash)]: the comparison takes strings only;
    [matches] is the library's verdict on a password and a stored hash. *)
Definition compareSync (matches : string → string → bool) (data hash : JsVal) : M bool :=
  match data, hash with
  | VStr p, VStr h => mret (matches p h)
  | _, _ => throw (TypeError "data and hash must be strings")
  end.

(** POST /api/auth/signin.  [loginError] is [errorMessages.loginError]. *)
Definition signin (matches : string → string → bool) (loginError : string)
    (req : Request) : M unit :=
  try_catch
    (let username := get (body req) "username" in
     let password := get (body req) "password" in
     if strict_eq username VUndef || strict_eq password VUndef
     then send 400 (Message "Body must include a username and password")
     else
       userResponse ← User_findUsers E (of_arrays ["username"] [username]);
       match userResponse with
       | [] => send 400 (Message loginError)
       | user :: _ =>
           passwordIsValid ← compareSync matches password (get user "password");
           if negb passwordIsValid
           then send 400 (Message loginError)
           else
             let token := generateUserAuthToken E user req in
             cookie token;;
             send 200 (TokenBody token)
       end)
    (λ err, log err;; send 500 GenericError).

End Handlers.
End Session.

Module Directory.

(** The bodies that [getUser] and [getUsers] answer with. *)
Inductive Json : Type :=
  | JGeneric                                  (* { message: GENERIC_ERROR } *)
  | JNotFound                                 (* { message: RESOURCE_NOT_FOUND_ERROR } *)
  | JProfile (email username name : JsVal)    (* { email, username, name } *)
  | JUsers (rows : list Obj).                 (* { users: rows } *)

(** [res.status(code).send(json)], which both handlers return. *)
Record Reply : Type := mkReply {
  code : Z;
  json : Json
}.

Section Handlers.

Context (E : Collaborators).

(** Modelled from the spec: [User.getAllUsers()], on the pool; it is logged
    as a lookup with the empty filter. *)
Definition User_getAllUsers : M (list Obj) :=
  call E (UserFind ∅) (read (λ s, DB.users (DB.view false (db s)))).

(** GET /api/user/:id *)
Definition getUser (req : Request) : M Reply :=
  try_catch
    (if negb (String.eqb (params_id req) (userId req))
     then mret (mkReply 400 JGeneric)
     else
       usersQuery ← User_findUsers E {[ "user_id" := VStr (params_id req) ]};
       match usersQuery with
       | [] => mret (mkReply 404 JNotFound)
       | user :: _ =>
           mret (mkReply 200
                   (JProfile (get user "email") (get user "username") (get user "name")))
       end)
    (λ err, log err;; mret (mkReply 500 JGeneric)).

(** GET /api/users *)
Definition getUsers (req : Request) : M Reply :=
  try_catch
    (usersQuery ← User_getAllUsers;
     mret (mkReply 200 (JUsers usersQuery)))
    (λ err, log err;; mret (mkReply 500 JGeneric)).

End Handlers.
End Directory.

(** ** More observations *)

(** The answers among the events: what ends a request. *)
Definition is_answer (e : Event) : bool :=
  match e with
  | ESend _ _ | ERedirect _ => true
  | _ => false
  end.

Definition answers (l : list Event) : list Event := List.filter is_answer l.

(** The mails handed to the mail service. *)
Definition mails (l : list Event) : list Email :=
  omap (λ e, match e with ECall (SmtpSend mail) => Some mail | _ => None end) l.

(** The calls among the events. *)
Definition calls (l : list Event) : list Call :=
  omap (λ e, match e with ECall c => Some c | _ => None end) l.

(** A call that writes to a store. *)
Definition is_write (c : Call) : bool :=
  match c with
  | UserCreate _ _ _ _ _ | UserSetAttributes _ _ | UserDelete _
  | TokenCreate _ _ _ | TokenDelete _ => true
  | _ => false
  end.

(** The body of a signup lacks one of the four fields. *)
Definition incomplete (req : Request) : Prop :=
  get (body req) "username" = VUndef ∨ get (body req) "email" = VUndef
  ∨ get (body req) "password" = VUndef ∨ get (body req) "name" = VUndef.

(** The same world [d] milliseconds later. *)
Definition elapse (d : Z) (s : State) : State :=
  mkState (db s) (clock s + d) (ticks s) (draws s) (serial s) (out s)
    (transactionInProgress s).

(** A handler that catches everything: it returns, and has answered once. *)
Definition answers_once (run : M unit) (s : State) : Prop :=
  match run s with
  | Ok _ s' => length (answers (since s s')) = 1%nat
  | Throw _ _ => False
  | Diverge => True
  end.

(** The stores after a list of [User.setAttributes] calls, in order. *)
Definition apply_calls (l : list (JsVal * Obj)) (st : DB.Stores) : DB.Stores :=
  foldl (λ st call, DB.set_attributes call.1 call.2 st) st l.

(** ** More sample worlds and requests *)

Module Cases.

(** The pool gives no client: the first call fails. *)
Definition pool_down : Collaborators :=
  Sample.env (λ _, "t0") (Sample.fail_at 0 (VStr "ECONNREFUSED")).

(** The store fails at the first call. *)
Definition store_down : Collaborators :=
  Sample.env (λ _, "t0") (Sample.fail_at 0 (VStr "57P01")).

Definition signup_no_name : Request :=
  Sample.request {[ "username" := VStr "al"; "email" := VStr "a@x.com";
                    "password" := VStr "p" ]} "" "" "" Standard.

(** A verification token whose owner has no row. *)
Definition orphaned : State := Sample.world [] [Sample.taken] 1000.

(** The token of [Sample.reset], long after its issue. *)
Definition late : State := Sample.world [Sample.al] [Sample.reset] 5000.

Definition verify_r0 : Request := Sample.request ∅ "" "r0" "" Standard.

Definition reset_t0 : Request :=
  Sample.request {[ "password" := VStr "new" ]} "" "t0" "" Standard.

(** The verdict that goes with the hash of [Sample.env]. *)
Definition matches : string → string → bool := λ p h, String.eqb ("#" +:+ p) h.

Definition signin_as (username password : string) : Request :=
  Sample.request {[ "username" := VStr username; "password" := VStr password ]}
    "" "" "" Standard.

Definition read_al : Request := Sample.request ∅ "7" "" "7" Standard.

Definition read_al_by_eve : Request := Sample.request ∅ "7" "" "9" Standard.

Definition rename_by_eve : Request :=
  Sample.request {[ "username" := VStr "eve" ]} "7" "" "9" Standard.


End Cases.

(** * Properties *)

(** ** Values and store lookups *)

Lemma strict_eq_spec (a b : JsVal) : strict_eq a b = true ↔ a = b.
Proof.
  destruct a, b; simpl; split; intros H; try discriminate; try congruence.
  - apply Bool.eqb_prop in H. congruence.
  - injection H as ->. apply Bool.eqb_reflx.
  - apply Z.eqb_eq in H. congruence.
  - injection H as ->. apply Z.eqb_refl.
  - apply String.eqb_eq in H. congruence.
  - injection H as ->. apply String.eqb_refl.
Qed.

Lemma strict_eq_refl (a : JsVal) : strict_eq a a = true.
Proof. by apply strict_eq_spec. Qed.

Lemma strict_eq_false (a b : JsVal) : a ≠ b → strict_eq a b = false.
Proof.
  intros Hne. destruct (strict_eq a b) eqn:Heq; [|done].
  by apply strict_eq_spec in Heq.
Qed.

(** No error code is both the string and the number that the two issuance
    loops compare it with. *)
Lemma code_tests_exclusive (code : JsVal) :
  strict_eq code (VStr "23505") = true → strict_eq code (VNum 23505) = false.
Proof. destruct code; simpl; congruence. Qed.

Lemma matches_spec (filter row : Obj) :
  DB.matches filter row = true ↔ ∀ k v, filter !! k = Some v → get row k = v.
Proof.
  unfold DB.matches. rewrite forallb_forall. split.
  - intros H k v Hkv. apply strict_eq_spec.
    apply (H (k, v)). apply list_elem_of_In. by apply elem_of_map_to_list.
  - intros H [k v] Hin. apply strict_eq_spec. simpl. apply H.
    apply elem_of_map_to_list. by apply list_elem_of_In.
Qed.

Lemma matches_token_filter (value : string) (type : SessionTokenType) (row : Obj) :
  DB.matches (token_filter value type) row = true
  ↔ get row "token" = VStr value ∧ get row "type" = type_value type.
Proof.
  rewrite matches_spec. unfold token_filter, of_arrays. simpl. split.
  - intros H. split; apply H; by simplify_map_eq.
  - intros [H1 H2] k v Hkv.
    destruct (decide (k = "token")) as [->|]; [by simplify_map_eq|].
    destruct (decide (k = "type")) as [->|]; by simplify_map_eq.
Qed.

Lemma matches_one (field : string) (v : JsVal) (row : Obj) :
  DB.matches (of_arrays [field] [v]) row = true ↔ get row field = v.
Proof.
  rewrite matches_spec. unfold of_arrays. simpl. split.
  - intros H. apply H. by simplify_map_eq.
  - intros H k w Hkw. destruct (decide (k = field)) as [->|]; by simplify_map_eq.
Qed.

Lemma find_elem (filter : Obj) (rows : list Obj) (row : Obj) :
  row ∈ DB.find filter rows ↔ row ∈ rows ∧ DB.matches filter row = true.
Proof.
  unfold DB.find. rewrite !list_elem_of_In, filter_In. done.
Qed.

Lemma find_none (filter : Obj) (rows : list Obj) :
  (∀ row, row ∈ rows → DB.matches filter row = false) → DB.find filter rows = [].
Proof.
  intros H. destruct (DB.find filter rows) as [|r l] eqn:Hf; [done|].
  assert (Hr : r ∈ DB.find filter rows) by (rewrite Hf; left).
  apply find_elem in Hr as [Hin Hm]. rewrite (H r Hin) in Hm. done.
Qed.

(** Under a uniqueness constraint on [key], a filter that fixes [key]
    finds the one row that has it. *)
Lemma find_unique (filter : Obj) (key : string) (v : JsVal) (rows : list Obj) (row : Obj) :
  filter !! key = Some v →
  NoDup (map (λ r, get r key) rows) →
  row ∈ rows →
  DB.matches filter row = true →
  DB.find filter rows = [row].
Proof.
  intros Hkey Hnd Hin Hm.
  assert (Hv : get row key = v) by (by apply (proj1 (matches_spec _ _) Hm)).
  induction rows as [|a rows IH]; [by apply elem_of_nil in Hin|].
  simpl in Hnd. apply NoDup_cons in Hnd as [Hna Hnd].
  apply elem_of_cons in Hin as [<-|Hin].
  - unfold DB.find. simpl. rewrite Hm. f_equal. apply find_none.
    intros r Hr. destruct (DB.matches filter r) eqn:Hmr; [|done].
    exfalso. apply Hna. apply list_elem_of_fmap. exists r. split; [|done].
    rewrite Hv. symmetry. by apply (proj1 (matches_spec _ _) Hmr).
  - unfold DB.find. simpl. destruct (DB.matches filter a) eqn:Hma.
    + exfalso. apply Hna. apply list_elem_of_fmap. exists row. split; [|done].
      rewrite Hv. by apply (proj1 (matches_spec _ _) Hma).
    + by apply IH.
Qed.

Lemma find_issued (st : DB.Stores) (row : Obj) (value : string) (type : SessionTokenType) :
  unique_tokens st → issued st row value type →
  DB.find (token_filter value type) (DB.tokens st) = [row].
Proof.
  intros Hu (Hin & Ht & Hty).
  apply (find_unique _ "token" (VStr value)); [done|done|done|].
  by apply matches_token_filter.
Qed.

Lemma find_field (field : string) (v : JsVal) (rows : list Obj) :
  (∃ row, row ∈ rows ∧ get row field = v) →
  ∃ row rest, DB.find (of_arrays [field] [v]) rows = row :: rest ∧ get row field = v.
Proof.
  intros (u & Hin & Hid).
  destruct (DB.find (of_arrays [field] [v]) rows) as [|r l] eqn:Hf.
  - assert (Hu : u ∈ DB.find (of_arrays [field] [v]) rows).
    { apply find_elem. split; [done|]. by apply matches_one. }
    rewrite Hf in Hu. by apply elem_of_nil in Hu.
  - exists r, l. split; [done|].
    assert (Hr : r ∈ DB.find (of_arrays [field] [v]) rows) by (rewrite Hf; left).
    apply find_elem in Hr as [_ Hm]. by apply matches_one.
Qed.

Lemma find_user (st : DB.Stores) (id : JsVal) :
  has_user st id →
  ∃ user rest, DB.find (of_arrays ["user_id"] [id]) (DB.users st) = user :: rest
               ∧ get user "user_id" = id.
Proof. apply find_field. Qed.

Lemma find_no_field (field : string) (v : JsVal) (rows : list Obj) :
  (∀ row, row ∈ rows → get row field ≠ v) →
  DB.find (of_arrays [field] [v]) rows = [].
Proof.
  intros H. apply find_none. intros row Hin.
  destruct (DB.matches (of_arrays [field] [v]) row) eqn:Hm; [|done].
  apply matches_one in Hm. by apply H in Hin.
Qed.

(** ** Running a handler *)

Lemma call_ok (E : Collaborators) {A} (c : Call) (work : M A) (s : State) :
  fault E (ticks s) = None →
  call E c work s = work (tick (emit (ECall c) s)).
Proof. intros H. unfold call. by rewrite H. Qed.

Lemma call_fails (E : Collaborators) {A} (c : Call) (work : M A) (s : State) (code : JsVal) :
  fault E (ticks s) = Some code →
  call E c work s = Throw (Failure code) (tick (emit (ECall c) s)).
Proof. intros H. unfold call. by rewrite H. Qed.

Ltac monad :=
  unfold send, redirect, cookie, log in *;
  unfold mbind, M_bind, mret, M_ret, try_catch, try_finally, effect, read,
    throw, diverge in *.

(** Projections of an updated state. *)
Ltac state :=
  cbn [emit set_db tick next_draw next_serial set_flag
    out db clock ticks draws serial transactionInProgress] in *.

Lemma since_app (s s' : State) (l : list Event) :
  out s' = out s ++ l → since s s' = l.
Proof. intros H. unfold since. rewrite H. apply drop_app_length. Qed.

(** Calls go through when the fault plan is empty. *)
Ltac calm Hnf :=
  repeat progress (cbn [strict_eq]; state; try unfold call; rewrite ?Hnf).

Ltac filters :=
  change (of_arrays ["token"; "type"] [VStr ?v; type_value ?ty])
    with (token_filter v ty) in *.

Section UserFacts.

Context (E : Collaborators).

(** C10: the delete-user handler deletes the rows of the id in the path
    and answers 204, whoever the caller is and whether or not a user with
    that id existed; the log of the run does not depend on the store. *)
Theorem deleteUser_unconditional (req : Request) (s : State) :
  fault E (ticks s) = None →
  ∃ s', UserController.deleteUser E req s = Ok tt s'
        ∧ since s s' = [ECall (UserDelete (VStr (params_id req))); ESend 204 NoBody]
        ∧ DB.tokens (DB.committed (db s')) = DB.tokens (DB.committed (db s))
        ∧ ∀ row, row ∈ DB.users (DB.committed (db s'))
                 ↔ row ∈ DB.users (DB.committed (db s))
                   ∧ get row "user_id" ≠ VStr (params_id req).
Proof.
  intros Hf. unfold UserController.deleteUser, User_deleteUser. monad.
  rewrite call_ok by done. simpl. eexists. split; [done|].
  split; [apply since_app; state; by rewrite <- app_assoc|]. state. split; [done|].
  intros row. unfold DB.delete_user. simpl.
  rewrite !list_elem_of_In, filter_In, negb_true_iff.
  split; intros [H1 H2]; (split; [done|]).
  - intros Heq. apply strict_eq_spec in Heq. congruence.
  - by apply strict_eq_false.
Qed.

End UserFacts.

Section AuthFacts.

Context (E : Collaborators).

(** The verify step on a token that is in the store. *)
Lemma verifyRecovery_run (req : Request) (s : State) (token : Obj) (t : Z) :
  no_faults E →
  unique_tokens (DB.committed (db s)) →
  issued (DB.committed (db s)) token (params_token req) Password →
  get token "created_at" = VNum t →
  ∃ s', AuthController.verifyRecovery E req s = Ok tt s'
        ∧ db s' = db s
        ∧ since s s' = [ECall (TokenFind (token_filter (params_token req) Password));
                        if (clock s - t <? TTL E)%Z
                        then ERedirect ("/recover/" +:+ params_token req)
                        else ESend 400 GenericError].
Proof.
  intros Hnf Hu Hi Hc.
  unfold AuthController.verifyRecovery, Token_findTokens, isPasswordTokenExpired.
  monad. filters. unfold call. rewrite !Hnf. state. unfold DB.view.
  rewrite (find_issued _ _ _ _ Hu Hi). rewrite Hc. state.
  destruct (clock s - t <? TTL E)%Z; simpl;
    (eexists; split; [done|]; state; split; [done|];
     apply since_app; state; by rewrite <- app_assoc).
Qed.

(** The process step on a token that is in the store, with a password to
    set and the owner of the token in the User store. *)
Lemma processRecovery_run (req : Request) (s : State) (token : Obj) (t : Z) (p : string) :
  no_faults E →
  unique_tokens (DB.committed (db s)) →
  issued (DB.committed (db s)) token (params_token req) Password →
  get token "created_at" = VNum t →
  get (body req) "password" = VStr p →
  has_user (DB.committed (db s)) (get token "user_id") →
  ∃ s' authToken, AuthController.processRecovery E req s = Ok tt s'
        ∧ responses (since s s') =
            if (clock s - t <? TTL E)%Z
            then [ECookie authToken; ESend 200 (TokenBody authToken)]
            else [ESend 400 GenericError].
Proof.
  intros Hnf Hu Hi Hc Hp Hown.
  unfold AuthController.processRecovery, Token_findTokens, isPasswordTokenExpired,
    User_findUsers, User_setAttributes, Token_deleteToken, bcrypt.
  rewrite Hp. monad. filters. calm Hnf. unfold DB.view.
  rewrite (find_issued _ _ _ _ Hu Hi). rewrite Hc. calm Hnf.
  destruct (clock s - t <? TTL E)%Z; simpl.
  - calm Hnf.
    destruct (find_user _ _ Hown) as (user & rest & Hfind & Hid). rewrite Hfind.
    calm Hnf.
    eexists. exists (generateUserAuthToken E user req). split; [done|].
    erewrite since_app; [|state; rewrite <- !app_assoc; done]. done.
  - eexists. exists "". split; [done|].
    erewrite since_app; [|state; rewrite <- !app_assoc; done]. done.
Qed.

(** C7: the verify step of a recovery is read-only.  For a password token
    that is in the store and has not expired, the handler makes one
    lookup, redirects to the password page of the token, and leaves the
    stores as they were. *)
Theorem verifyRecovery_read_only (req : Request) (s : State) (token : Obj) (t : Z) :
  no_faults E →
  unique_tokens (DB.committed (db s)) →
  issued (DB.committed (db s)) token (params_token req) Password →
  get token "created_at" = VNum t →
  clock s - t < TTL E →
  ∃ s', AuthController.verifyRecovery E req s = Ok tt s'
        ∧ db s' = db s
        ∧ since s s' = [ECall (TokenFind (token_filter (params_token req) Password));
                        ERedirect ("/recover/" +:+ params_token req)].
Proof.
  intros Hnf Hu Hi Hc Hage.
  destruct (verifyRecovery_run req s token t Hnf Hu Hi Hc) as (s' & Hrun & Hdb & Hout).
  exists s'. split; [done|]. split; [done|].
  rewrite Hout. by rewrite (proj2 (Z.ltb_lt _ _) Hage).
Qed.

(** One round of the issuance loop of the recovery flow, when the drawn
    token is not in the store yet. *)
Lemma recovery_issue_fresh (fuel : nat) (user_id : JsVal) (s : State) :
  fault E (ticks s) = None →
  DB.has "token" (VStr (generateShortToken E (draws s)))
    (DB.tokens (DB.committed (db s))) = false →
  ∃ s', AuthController.recovery_issue E (S fuel) user_id s
          = Ok (generateShortToken E (draws s)) s'
        ∧ ticks s' = S (ticks s)
        ∧ out s' = out s ++ [ECall (TokenCreate user_id (generateShortToken E (draws s))
                                      Password)].
Proof.
  intros Hf Hfresh. simpl. unfold shortToken, Token_create. monad.
  unfold call. state. rewrite Hf. unfold DB.view. state. rewrite Hfresh.
  eexists. split; [done|]. by state.
Qed.

(** The issuance loop of the recovery flow answers nothing itself. *)
Lemma recovery_issue_silent (fuel : nat) (user_id : JsVal) (s : State) :
  match AuthController.recovery_issue E fuel user_id s with
  | Ok _ s1 | Throw _ s1 => ∃ l, out s1 = out s ++ l ∧ responses l = []
  | Diverge => True
  end.
Proof.
  revert s. induction fuel as [|fuel IH]; intros s; [done|].
  assert (Hloop : ∀ c,
    match AuthController.recovery_issue E fuel user_id (tick (emit (ECall c) (next_draw s))) with
    | Ok _ s1 | Throw _ s1 => ∃ l, out s1 = out s ++ l ∧ responses l = []
    | Diverge => True
    end).
  { intros c. specialize (IH (tick (emit (ECall c) (next_draw s)))).
    destruct (AuthController.recovery_issue E fuel user_id _) as [a s1|e s1|]; [| |done];
      destruct IH as (l & Hout & Hl);
      (exists (ECall c :: l); split; [|done]; rewrite Hout; state;
       by rewrite <- app_assoc). }
  simpl. unfold shortToken, Token_create. monad. unfold call. state.
  destruct (fault E (ticks s)) as [code|]; state; cbn [exn_code].
  - destruct (strict_eq code (VNum 23505)); [apply Hloop|]. state. eauto.
  - destruct (DB.has _ _ _); state; cbn [exn_code strict_eq DB.unique_violation].
    + eauto.
    + eauto.
Qed.

(** Whatever fails, a recovery request with an address is answered by the
    redirect to the sent page or by the generic 500. *)
Lemma recovery_answers (fuel : nat) (req : Request) (s : State) :
  get (body req) "email" ≠ VUndef →
  match AuthController.recovery E fuel req s with
  | Ok _ s' => responses (since s s') = [ERedirect "/recover/sent"]
               ∨ responses (since s s') = [ESend 500 GenericError]
  | Throw _ _ => False
  | Diverge => True
  end.
Proof.
  intros He.
  unfold AuthController.recovery, User_findUsers, AuthController.sendPasswordResetEmail,
    smtp_sendEmail.
  rewrite (strict_eq_false _ _ He). monad. unfold call at 1. state.
  destruct (fault E (ticks s)); state.
  { right. erewrite since_app; [|state; rewrite <- ?app_assoc; reflexivity]. done. }
  destruct (DB.find _ _) as [|user rest]; state.
  { left. erewrite since_app; [|state; rewrite <- ?app_assoc; reflexivity]. done. }
  match goal with
  | |- context [AuthController.recovery_issue E fuel ?u ?s1] =>
      pose proof (recovery_issue_silent fuel u s1) as Hloop;
      destruct (AuthController.recovery_issue E fuel u s1) as [token s2|err s2|]
  end; [| |done]; destruct Hloop as (l & Hout & Hl); revert Hout; state; intros Hout.
  - unfold call. destruct (fault E (ticks s2)); state; [right|left];
      (erewrite since_app; [|state; rewrite Hout; rewrite <- ?app_assoc; reflexivity];
       unfold responses; rewrite !List.filter_app;
       change (List.filter is_response l) with (responses l); by rewrite Hl).
  - right. erewrite since_app; [|state; rewrite Hout; rewrite <- ?app_assoc; reflexivity].
    unfold responses. rewrite !List.filter_app.
    change (List.filter is_response l) with (responses l). by rewrite Hl.
Qed.

End AuthFacts.

Lemma get_union_l (attributes row : Obj) (k : string) (v : JsVal) :
  attributes !! k = Some v → get (attributes ∪ row) k = v.
Proof. intros H. unfold get. by rewrite (lookup_union_Some_l _ _ _ _ H). Qed.

Lemma get_union_r (attributes row : Obj) (k : string) :
  attributes !! k = None → get (attributes ∪ row) k = get row k.
Proof. intros H. unfold get. by rewrite lookup_union_r. Qed.

Lemma view_update (on_client : bool) (f : DB.Stores → DB.Stores) (d : DB.Database) :
  DB.view on_client (DB.update on_client f d) = f (DB.view on_client d).
Proof. unfold DB.view, DB.update. destruct on_client, (DB.tx d); done. Qed.

Lemma delete_token_find (value : string) (type : SessionTokenType) (st : DB.Stores) :
  DB.find (token_filter value type) (DB.tokens (DB.delete_token (VStr value) st)) = [].
Proof.
  apply find_none. intros row Hin. unfold DB.delete_token in Hin. simpl in Hin.
  apply list_elem_of_In, filter_In in Hin as [_ Hne].
  apply negb_true_iff in Hne.
  destruct (DB.matches (token_filter value type) row) eqn:Hm; [|done].
  apply matches_token_filter in Hm as [Hm _]. rewrite Hm, strict_eq_refl in Hne. done.
Qed.

Section VerifyFacts.

Context (E : Collaborators).

(** C4: redeeming a verification token that is in the store succeeds the
    first time: the owner is marked verified, the token row is deleted
    and the answer is the redirect to the login page.  Redeeming the same
    value again finds no token and redirects to the login page without
    touching the stores. *)
Theorem verify_once (req : Request) (s : State) (token : Obj) :
  no_faults E →
  unique_tokens (DB.committed (db s)) →
  issued (DB.committed (db s)) token (params_token req) Verification →
  has_user (DB.committed (db s)) (get token "user_id") →
  ∃ s1 s2,
    AuthController.verify E req s = Ok tt s1
    ∧ responses (since s s1) = [ERedirect "/login"]
    ∧ has_user (DB.committed (db s1)) (get token "user_id")
    ∧ (∀ user, user ∈ DB.users (DB.committed (db s1)) →
               get user "user_id" = get token "user_id" →
               get user "verified" = VBool true)
    ∧ (∀ row, row ∈ DB.tokens (DB.committed (db s1))
              ↔ row ∈ DB.tokens (DB.committed (db s))
                ∧ get row "token" ≠ VStr (params_token req))
    ∧ AuthController.verify E req s1 = Ok tt s2
    ∧ db s2 = db s1
    ∧ since s1 s2 = [ECall (TokenFind (token_filter (params_token req) Verification));
                     ERedirect "/login"].
Proof.
  intros Hnf Hu Hi Hown.
  destruct (find_user _ _ Hown) as (user & rest & Hfind & Hid).
  destruct Hi as (Hin & Htok & Hty).
  unfold AuthController.verify, Token_findTokens, User_findUsers, User_setAttributes,
    Token_deleteToken.
  monad. filters. calm Hnf. unfold DB.view.
  rewrite (find_issued _ _ _ _ Hu (conj Hin (conj Htok Hty))). calm Hnf.
  rewrite Hfind. calm Hnf. rewrite Hid, Htok.
  eexists. eexists. split; [done|].
  split; [erewrite since_app; [|state; rewrite <- !app_assoc; done]; done|].
  state. unfold DB.update. simpl.
  split; [|split; [|split]].
  - destruct Hown as (u & Hu1 & Hu2). exists (of_arrays ["verified"] [VBool true] ∪ u).
    split.
    + apply list_elem_of_fmap. exists u. split; [|done].
      by rewrite Hu2, strict_eq_refl.
    + by rewrite get_union_r.
  - intros u' Hu' Hid'. apply list_elem_of_fmap in Hu' as (u & -> & Hu1).
    destruct (strict_eq (get u "user_id") (get token "user_id")) eqn:Heq.
    + by apply get_union_l.
    + apply strict_eq_spec in Hid'. congruence.
  - intros row. rewrite !list_elem_of_In, filter_In, negb_true_iff.
    split; intros [H1 H2]; (split; [done|]).
    + intros Heq. apply strict_eq_spec in Heq. congruence.
    + by apply strict_eq_false.
  - rewrite Hnf.
    change (List.filter _ (DB.tokens ?st))
      with (DB.tokens (DB.delete_token (VStr (params_token req)) st)).
    rewrite delete_token_find.
    split; [done|]. split; [done|].
    apply since_app. state. by rewrite <- app_assoc.
Qed.

End VerifyFacts.

Section IssuanceFacts.

Context (E : Collaborators).

(** A round of the signup loop whose token is taken: the loop goes on. *)
Lemma signup_issue_collision (fuel : nat) (user_id : JsVal) (s : State) :
  fault E (ticks s) = None →
  DB.has "token" (VStr (generateShortToken E (draws s)))
    (DB.tokens (DB.view true (db s))) = true →
  AuthController.signup_issue E (S fuel) user_id s
  = AuthController.signup_issue E fuel user_id
      (tick (emit (ECall (TokenCreate user_id (generateShortToken E (draws s))
                            Verification)) (next_draw s))).
Proof.
  intros Hf Htaken. simpl. unfold shortToken, Token_create. monad.
  unfold call. state. rewrite Hf. state. by rewrite Htaken.
Qed.

(** A round of the signup loop whose token is free: the loop returns it. *)
Lemma signup_issue_fresh (fuel : nat) (user_id : JsVal) (s : State) :
  fault E (ticks s) = None →
  DB.has "token" (VStr (generateShortToken E (draws s)))
    (DB.tokens (DB.view true (db s))) = false →
  AuthController.signup_issue E (S fuel) user_id s
  = Ok (generateShortToken E (draws s))
      (set_db (DB.update true
                 (DB.add_token (DB.new_token user_id (generateShortToken E (draws s))
                                  Verification (clock s))))
         (tick (emit (ECall (TokenCreate user_id (generateShortToken E (draws s))
                               Verification)) (next_draw s)))).
Proof.
  intros Hf Hfree. simpl. unfold shortToken, Token_create. monad.
  unfold call. state. rewrite Hf. state. by rewrite Hfree.
Qed.

(** A round of either loop that fails for another reason: the error of
    the loop is thrown at once. *)
Lemma signup_issue_failure (fuel : nat) (user_id : JsVal) (s : State) (code : JsVal) :
  fault E (ticks s) = Some code →
  code ≠ VStr "23505" →
  ∃ s', AuthController.signup_issue E (S fuel) user_id s
        = Throw (TokenCreationError code) s'.
Proof.
  intros Hf Hcode. simpl. unfold shortToken, Token_create. monad.
  unfold call. state. rewrite Hf. simpl. rewrite (strict_eq_false _ _ Hcode). eauto.
Qed.

(** A round of the recovery loop whose token is taken: the violation is
    reported with the code the driver gives, a string, which the loop
    compares with a number. *)
Lemma recovery_issue_collision (fuel : nat) (user_id : JsVal) (s : State) :
  fault E (ticks s) = None →
  DB.has "token" (VStr (generateShortToken E (draws s)))
    (DB.tokens (DB.committed (db s))) = true →
  AuthController.recovery_issue E (S fuel) user_id s
  = Throw (TokenCreationError DB.unique_violation)
      (tick (emit (ECall (TokenCreate user_id (generateShortToken E (draws s))
                            Password)) (next_draw s))).
Proof.
  intros Hf Htaken. simpl. unfold shortToken, Token_create. monad.
  unfold call. state. rewrite Hf. unfold DB.view. state. by rewrite Htaken.
Qed.

(** While every draw is taken the signup loop uses up any fuel. *)
Lemma signup_issue_collides_forever (fuel : nat) (user_id : JsVal) (s : State) :
  no_faults E →
  (∀ n, DB.has "token" (VStr (generateShortToken E n))
          (DB.tokens (DB.view true (db s))) = true) →
  AuthController.signup_issue E fuel user_id s = Diverge.
Proof.
  intros Hnf Htaken. revert s Htaken.
  induction fuel as [|fuel IH]; intros s Htaken; [done|].
  rewrite signup_issue_collision by done. apply IH. by state.
Qed.

(** C3, as the code has it: the signup loop has no retry cap.  After [n]
    collisions in a row and then a free token it returns that token, the
    one of attempt [n + 1], for every [n], and it has added one token row. *)
Theorem signup_issue_after_collisions (n fuel : nat) (user_id : JsVal) (s : State) :
  no_faults E →
  (∀ k, (k < n)%nat →
        DB.has "token" (VStr (generateShortToken E (draws s + k)))
          (DB.tokens (DB.view true (db s))) = true) →
  DB.has "token" (VStr (generateShortToken E (draws s + n)))
    (DB.tokens (DB.view true (db s))) = false →
  (n < fuel)%nat →
  ∃ s', AuthController.signup_issue E fuel user_id s
          = Ok (generateShortToken E (draws s + n)) s'
        ∧ draws s' = (draws s + n + 1)%nat
        ∧ DB.tokens (DB.view true (db s'))
          = DB.tokens (DB.view true (db s))
            ++ [DB.new_token user_id (generateShortToken E (draws s + n))
                  Verification (clock s)]
        ∧ DB.users (DB.view true (db s')) = DB.users (DB.view true (db s)).
Proof.
  intros Hnf. revert fuel s. induction n as [|n IH]; intros fuel s Htaken Hfree Hfuel.
  - destruct fuel as [|fuel]; [lia|]. rewrite Nat.add_0_r in *.
    rewrite signup_issue_fresh by done. eexists. split; [done|]. state.
    split; [lia|]. by rewrite view_update.
  - destruct fuel as [|fuel]; [lia|].
    rewrite signup_issue_collision;
      [|done|specialize (Htaken O); rewrite Nat.add_0_r in Htaken; apply Htaken; lia].
    match goal with
    | |- context [AuthController.signup_issue E fuel user_id ?s1] =>
        destruct (IH fuel s1) as (s' & Hrun & Hd & Ht & Hus)
    end.
    + intros k Hk. state. replace (S (draws s) + k)%nat with (draws s + S k)%nat by lia.
      apply Htaken. lia.
    + state. replace (S (draws s) + n)%nat with (draws s + S n)%nat by lia. done.
    + lia.
    + revert Hrun Hd Ht Hus. state.
      replace (S (draws s) + n)%nat with (draws s + S n)%nat by lia.
      intros Hrun Hd Ht Hus. exists s'. split; [done|]. split; [lia|]. done.
Qed.

End IssuanceFacts.

(** C3, counterexample: with a generator that keeps drawing a token that
    is taken, no amount of fuel lets the signup loop finish. *)
Lemma signup_issue_unbounded :
  ¬ ∃ fuel, AuthController.signup_issue Sample.stuck fuel (VStr "7") Sample.with_taken
            ≠ Diverge.
Proof.
  intros [fuel H]. apply H. apply signup_issue_collides_forever; [done|].
  intros n. reflexivity.
Qed.

(** C2, on the recovery path: the first short token drawn is taken, the
    store reports the uniqueness violation, and the request ends in the
    generic 500 after a single attempt; nothing is regenerated. *)
Theorem recovery_collision_not_retried :
  let E := Sample.quiet in
  let s := Sample.with_taken in
  ∃ s', AuthController.recovery E 5 Sample.recover_al s = Ok tt s'
        ∧ since s s'
          = [ECall (UserFind (of_arrays ["email"] [VStr "a@x.com"]));
             ECall (TokenCreate (VStr "7") "t0" Password);
             ELog (TokenCreationError (VStr "23505"));
             ESend 500 GenericError]
        ∧ db s' = db s.
Proof. eexists. split; [vm_compute; reflexivity|]. split; vm_compute; reflexivity. Qed.

(** The sibling path: signup, in the same situation, draws again. *)
Example signup_collision_retried :
  let E := Sample.quiet in
  let s := Sample.world [] [Sample.taken] 1000 in
  ∃ s', AuthController.signup E 5 Sample.signup_al s = Ok tt s'
        ∧ responses (since s s') = [ESend 204 NoBody]
        ∧ map (λ row, get row "token") (DB.tokens (DB.committed (db s')))
          = [VStr "t0"; VStr "t1"].
Proof. eexists. split; [vm_compute; reflexivity|]. split; vm_compute; reflexivity. Qed.

(** ** The attribute bags of an update *)

Section CollectFacts.

Context (req : Request).

Lemma collect_fold_profile (l : list string) (acc : Obj * Obj) (k : string) :
  (∀ a, a ∈ l → is_Some (body req !! a)) →
  (foldl (UserController.collect_step req) acc l).1 !! k
  = if bool_decide (k ∈ l ∧ k ∈ UserController.profile_attributes)
    then body req !! k else acc.1 !! k.
Proof.
  revert acc. induction l as [|a l IH]; intros acc Hl; cbn [foldl].
  - rewrite bool_decide_eq_false_2; [done|]. intros [H _]. by apply elem_of_nil in H.
  - rewrite IH by (intros b Hb; apply Hl; by right).
    destruct (Hl a) as [v Hv]; [by left|].
    unfold UserController.collect_step. cbn [fst snd].
    repeat case_bool_decide;
      destruct (decide (k = a)) as [->|Hne];
      rewrite ?lookup_insert_eq, ?lookup_insert_ne by done;
      unfold get; rewrite ?Hv; simpl; try done; exfalso; set_solver.
Qed.

Lemma collect_fold_admin (l : list string) (acc : Obj * Obj) (k : string) :
  (∀ a, a ∈ l → is_Some (body req !! a)) →
  (foldl (UserController.collect_step req) acc l).2 !! k
  = if bool_decide (k = "role_id" ∧ "roleId" ∈ l)
    then body req !! "roleId" else acc.2 !! k.
Proof.
  revert acc. induction l as [|a l IH]; intros acc Hl; cbn [foldl].
  - rewrite bool_decide_eq_false_2; [done|]. intros [_ H]. by apply elem_of_nil in H.
  - rewrite IH by (intros b Hb; apply Hl; by right).
    destruct (Hl a) as [v Hv]; [by left|].
    unfold UserController.collect_step. cbn [fst snd].
    unfold UserController.admin_attributes.
    repeat case_bool_decide;
      destruct (decide (k = "role_id")) as [->|Hne];
      rewrite ?lookup_insert_eq, ?lookup_insert_ne by done;
      unfold get; try done; try (exfalso; set_solver).
    assert (a = "roleId") as -> by set_solver.
    destruct (Hl "roleId") as [v' Hv']; [by left|]. by rewrite Hv'.
Qed.

Lemma keys_elem (k : string) : k ∈ keys (body req) ↔ is_Some (body req !! k).
Proof.
  unfold keys. rewrite list_elem_of_fmap. split.
  - intros ([k' v] & -> & Hin). apply elem_of_map_to_list in Hin. by exists v.
  - intros [v Hv]. exists (k, v). split; [done|]. by apply elem_of_map_to_list.
Qed.

(** [newAttributes] holds the profile attributes of the body. *)
Lemma collect_profile (k : string) :
  (UserController.collect req).1 !! k
  = if bool_decide (k ∈ UserController.profile_attributes) then body req !! k else None.
Proof.
  unfold UserController.collect. rewrite collect_fold_profile by (intros a; apply keys_elem).
  cbn [fst]. rewrite lookup_empty.
  repeat case_bool_decide; try done; try (exfalso; naive_solver).
  destruct (body req !! k) eqn:Hk; [|done]. exfalso.
  match goal with
  | H : ¬ (_ ∧ _) |- _ => apply H; split; [apply keys_elem; by rewrite Hk|done]
  end.
Qed.

(** [newAdminAttributes] holds [role_id], taken from [roleId] of the body. *)
Lemma collect_admin (k : string) :
  (UserController.collect req).2 !! k
  = if bool_decide (k = "role_id") then body req !! "roleId" else None.
Proof.
  unfold UserController.collect. rewrite collect_fold_admin by (intros a; apply keys_elem).
  cbn [snd]. rewrite lookup_empty.
  repeat case_bool_decide; try done; try (exfalso; naive_solver).
  destruct (body req !! "roleId") eqn:Hk; [|done]. exfalso.
  match goal with
  | H : ¬ (_ ∧ _) |- _ => apply H; split; [done|apply keys_elem; by rewrite Hk]
  end.
Qed.

End CollectFacts.

Section UpdateFacts.

Context (E : Collaborators).

Lemma size_nonzero (m : Obj) : negb (Nat.eqb (size m) 0) = bool_decide (m ≠ ∅).
Proof.
  destruct (Nat.eqb_spec (size m) 0) as [H|H]; simpl.
  - apply map_size_empty_iff in H. by rewrite bool_decide_eq_false_2 by tauto.
  - rewrite bool_decide_eq_true_2; [done|]. intros ->. by rewrite map_size_empty in H.
Qed.

Lemma both_guards (P Q : Prop) `{Decision P, Decision Q} :
  bool_decide P && bool_decide Q = bool_decide (P ∧ Q).
Proof. repeat case_bool_decide; simpl; tauto. Qed.

Lemma eqb_decide (a b : string) : String.eqb a b = bool_decide (a = b).
Proof.
  destruct (String.eqb_spec a b);
    [by rewrite bool_decide_eq_true_2|by rewrite bool_decide_eq_false_2].
Qed.

Ltac fault_cases :=
  repeat match goal with
         | |- context [fault E ?n] => destruct (fault E n) eqn:?; state
         end.

Ltac leaf :=
  do 2 eexists; split; [reflexivity|];
  split; [state; rewrite <- ?app_assoc; reflexivity|];
  simpl; unfold prefix; eexists; simpl; reflexivity.

Lemma updateUser_trace (req : Request) (s : State) :
  ∃ s' l,
    UserController.updateUser E req s = Ok tt s'
    ∧ out s' = out s ++ l
    ∧ persisted l `prefix_of`
        gated_calls req (sent_profile E req) (UserController.collect req).2.
Proof.
  unfold UserController.updateUser, sent_profile.
  match goal with |- context [mbind ?k _] => set (rest := k) end.
  assert (Hrest : ∀ na s0, ∃ s' l,
             try_catch (rest na) (λ err, log err;; send 500 GenericError) s0 = Ok tt s'
             ∧ out s' = out s0 ++ l
             ∧ persisted l `prefix_of` gated_calls req na (UserController.collect req).2).
  { intros na s0. unfold rest, User_setAttributes, gated_calls.
    rewrite eqb_decide, !size_nonzero, !both_guards.
    monad. unfold call.
    repeat case_bool_decide; destruct (truthy (get na "username")); state;
      fault_cases; leaf. }
  clearbody rest. unfold bcrypt.
  destruct (get (UserController.collect req).1 "password") eqn:Hpw;
    cbn [strict_eq negb]; try apply Hrest.
  - monad. leaf.
  - monad. leaf.
Qed.

Lemma collect_get (req : Request) (k : string) :
  k ∈ UserController.profile_attributes →
  get (UserController.collect req).1 k = get (body req) k.
Proof.
  intros Hk. unfold get. rewrite collect_profile. by rewrite bool_decide_eq_true_2.
Qed.

Lemma sent_profile_keys (req : Request) (k : string) :
  is_Some (sent_profile E req !! k)
  ↔ k ∈ UserController.profile_attributes ∧ is_Some (body req !! k).
Proof.
  assert (Hc : is_Some ((UserController.collect req).1 !! k)
               ↔ k ∈ UserController.profile_attributes ∧ is_Some (body req !! k)).
  { rewrite collect_profile. case_bool_decide; [tauto|].
    split; [by intros [? ?]|tauto]. }
  unfold sent_profile.
  destruct (get (UserController.collect req).1 "password") eqn:Hpw; try done.
  destruct (decide (k = "password")) as [->|Hne].
  - rewrite lookup_insert_eq. rewrite <- Hc.
    unfold get in Hpw. destruct ((UserController.collect req).1 !! "password"); [|done].
    split; eauto.
  - by rewrite lookup_insert_ne.
Qed.

Lemma sent_profile_username (req : Request) :
  get (sent_profile E req) "username" = get (body req) "username".
Proof.
  rewrite <- (collect_get req "username") by set_solver.
  unfold sent_profile.
  destruct (get (UserController.collect req).1 "password"); try done.
  unfold get. by rewrite lookup_insert_ne.
Qed.

Lemma admin_keys (req : Request) (k : string) :
  is_Some ((UserController.collect req).2 !! k)
  ↔ k = "role_id" ∧ is_Some (body req !! "roleId").
Proof.
  rewrite collect_admin. case_bool_decide; [tauto|].
  split; [by intros [? ?]|tauto].
Qed.

(** The run of [updateUser] when no collaborator fails and the password,
    if any, can be hashed. *)
Lemma updateUser_run (req : Request) (s : State) :
  no_faults E → password_usable req →
  ∃ s', UserController.updateUser E req s = Ok tt s'
        ∧ persisted (since s s')
          = gated_calls req (sent_profile E req) (UserController.collect req).2
        ∧ responses (since s s')
          = if truthy (get (body req) "username")
            then [ECookie (generateUpdatedUserAuthToken E req (sent_profile E req));
                  ESend 200 (NewTokenBody
                               (generateUpdatedUserAuthToken E req (sent_profile E req)))]
            else [ESend 204 NoBody].
Proof.
  intros Hnf Hpw. rewrite <- sent_profile_username.
  unfold UserController.updateUser, sent_profile.
  match goal with |- context [mbind ?k _] => set (rest := k) end.
  assert (Hrest : ∀ na s0, ∃ s',
             try_catch (rest na) (λ err, log err;; send 500 GenericError) s0 = Ok tt s'
             ∧ persisted (since s0 s')
               = gated_calls req na (UserController.collect req).2
             ∧ responses (since s0 s')
               = if truthy (get na "username")
                 then [ECookie (generateUpdatedUserAuthToken E req na);
                       ESend 200 (NewTokenBody (generateUpdatedUserAuthToken E req na))]
                 else [ESend 204 NoBody]).
  { intros na s0. unfold rest, User_setAttributes, gated_calls.
    rewrite eqb_decide, !size_nonzero, !both_guards.
    monad. unfold call.
    repeat case_bool_decide; destruct (truthy (get na "username")); state;
      rewrite ?Hnf; state;
      (eexists; split; [reflexivity|];
       erewrite since_app; [|state; rewrite <- ?app_assoc; reflexivity];
       split; reflexivity). }
  clearbody rest. unfold bcrypt.
  rewrite (collect_get req "password") by set_solver.
  destruct Hpw as [Hpw|[p Hpw]]; rewrite Hpw; cbn [strict_eq negb]; apply Hrest.
Qed.

(** C8: every call that [updateUser] makes to [User.setAttributes] is, in
    this order, the profile bag (username, email, name, password of the
    body) when the caller's id is the id of the path, and the role bag
    when the caller is an administrator; each gate is taken on its own,
    there are at most these two calls, and no other attribute is in a bag.
    When no collaborator fails the calls are exactly these. *)
Theorem updateUser_gated (req : Request) (s : State) :
  ∃ s' profile admin,
    UserController.updateUser E req s = Ok tt s'
    ∧ (∀ k, is_Some (profile !! k)
            ↔ k ∈ UserController.profile_attributes ∧ is_Some (body req !! k))
    ∧ (∀ k, is_Some (admin !! k) ↔ k = "role_id" ∧ is_Some (body req !! "roleId"))
    ∧ persisted (since s s') `prefix_of` gated_calls req profile admin
    ∧ (no_faults E → password_usable req →
       persisted (since s s') = gated_calls req profile admin).
Proof.
  destruct (updateUser_trace req s) as (s' & l & Hrun & Hout & Hpre).
  exists s', (sent_profile E req), (UserController.collect req).2.
  split; [done|]. split; [apply sent_profile_keys|]. split; [apply admin_keys|].
  rewrite (since_app _ _ _ Hout). split; [done|].
  intros Hnf Hpw. destruct (updateUser_run req s Hnf Hpw) as (s'' & Hrun' & Hp & _).
  rewrite Hrun in Hrun'. injection Hrun' as <-.
  by rewrite <- Hp, (since_app _ _ _ Hout).
Qed.

(** C9, as the code has it: when the caller updates their own account and
    no collaborator fails, a refreshed credential is set as a cookie and
    returned exactly when the body carries a username that is truthy,
    whether or not it differs from the stored one; otherwise the answer
    is the empty 204. *)
Theorem updateUser_credential (req : Request) (s : State) :
  no_faults E →
  userId req = params_id req →
  password_usable req →
  ∃ s', UserController.updateUser E req s = Ok tt s'
        ∧ ((∃ newToken, responses (since s s')
                        = [ECookie newToken; ESend 200 (NewTokenBody newToken)])
           ↔ truthy (get (body req) "username") = true)
        ∧ (truthy (get (body req) "username") = false →
           responses (since s s') = [ESend 204 NoBody]).
Proof.
  intros Hnf _ Hpw. destruct (updateUser_run req s Hnf Hpw) as (s' & Hrun & _ & Hresp).
  exists s'. split; [done|]. rewrite Hresp.
  destruct (truthy (get (body req) "username")); split; try done.
  - split; [done|]. intros _. eauto.
  - split; [|done]. intros [t Ht]. done.
Qed.

End UpdateFacts.

(** C9, counterexample: the caller sends the username they already have.
    Nothing changes in the stores, and a refreshed credential is issued
    all the same. *)
Lemma updateUser_refresh_without_change :
  let E := Sample.quiet in
  let s := Sample.with_al in
  let req := Sample.rename_al in
  ∃ s', UserController.updateUser E req s = Ok tt s'
        ∧ db s' = db s
        ∧ responses (since s s')
          = [ECookie "session'"; ESend 200 (NewTokenBody "session'")].
Proof. eexists. split; [vm_compute; reflexivity|]. split; vm_compute; reflexivity. Qed.

Section SignupFacts.

Context (E : Collaborators).

Lemma signup_issue_in_transaction (fuel : nat) (user_id : JsVal) (s : State) :
  is_Some (DB.tx (db s)) →
  match AuthController.signup_issue E fuel user_id s with
  | Ok _ s1 | Throw _ s1 => in_transaction s s1
  | Diverge => True
  end.
Proof.
  revert s. induction fuel as [|fuel IH]; intros s [st Hst]; [done|].
  assert (Hnext : ∀ c, is_Some (DB.tx (db (tick (emit (ECall c) (next_draw s))))))
    by (intros c; state; eauto).
  assert (Hloop : ∀ c,
    match AuthController.signup_issue E fuel user_id (tick (emit (ECall c) (next_draw s))) with
    | Ok _ s1 | Throw _ s1 => in_transaction s s1
    | Diverge => True
    end).
  { intros c. specialize (IH _ (Hnext c)).
    destruct (AuthController.signup_issue E fuel user_id _) as [a s1|e s1|]; [| |done];
      destruct IH as (Hc & Ht & Hf & l & Hout & Hl);
      (split; [done|]; split; [done|]; split; [done|];
       exists (ECall c :: l); split; [|done];
       rewrite Hout; state; by rewrite <- app_assoc). }
  simpl. unfold shortToken, Token_create. monad. unfold call. state.
  destruct (fault E (ticks s)) as [code|] eqn:Hf; state; cbn [exn_code].
  - destruct (strict_eq code (VStr "23505")); [apply Hloop|].
    split; [done|]. split; [eauto|]. split; [done|]. state. eauto.
  - unfold DB.view. rewrite Hst. cbn [default].
    destruct (DB.has _ _ _); state; cbn [exn_code].
    + apply Hloop.
    + unfold in_transaction. state. unfold DB.update. rewrite Hst. cbn.
      split; [done|]. split; [eauto|]. split; [done|]. eauto.
Qed.

Lemma client_query_begin :
  client_query E "BEGIN" = call E (ClientQuery "BEGIN") (effect (set_db DB.begin)).
Proof. reflexivity. Qed.

Lemma client_query_commit :
  client_query E "COMMIT" = call E (ClientQuery "COMMIT") (effect (set_db DB.commit)).
Proof. reflexivity. Qed.

Lemma client_query_rollback :
  client_query E "ROLLBACK" = call E (ClientQuery "ROLLBACK") (effect (set_db DB.rollback)).
Proof. reflexivity. Qed.

Ltac fault_case :=
  match goal with
  | |- context [fault E ?n] => destruct (fault E n) eqn:?; state
  end.

Ltac since_explicit :=
  erewrite since_app;
  [|state; repeat match goal with H : out _ = _ |- _ => rewrite H end;
    rewrite <- ?app_assoc; reflexivity].

(** An error before the insert was tried: nothing to undo. *)
Ltac no_insert :=
  unfold rolled_back; since_explicit; state;
  split; [done|]; split; [done|];
  let H := fresh in
  intros (? & ? & ? & ? & ? & H); exfalso; cbn in H;
  repeat (apply elem_of_cons in H as [H|H]; [discriminate|]);
  by apply elem_of_nil in H.

(** An error inside the transaction: the response, then the rollback. *)
Ltac undone :=
  unfold rolled_back; since_explicit; state;
  cbn [DB.rollback DB.committed DB.tx];
  split; [done|]; split; [done|]; intros _; eexists; cbn;
  repeat first [solve [reflexivity] | apply suffix_cons_r | apply suffix_app_r].

Lemma signup_outcome (fuel : nat) (req : Request) (s : State) :
  DB.tx (db s) = None →
  match AuthController.signup E fuel req s with
  | Ok _ s' => ESend 204 NoBody ∈ since s s' ∨ rolled_back s s'
  | _ => True
  end.
Proof.
  intros Htx.
  unfold AuthController.signup, AuthController.sendVerificationEmail.
  rewrite client_query_begin, client_query_commit, client_query_rollback.
  unfold pool_connect, client_release, User_create, smtp_sendEmail, bcrypt.
  monad. unfold call. state.
  fault_case; [done|].
  destruct (_ || _); state.
  { fault_case; [done|]. right. no_insert. }
  destruct (get (body req) "password"); state.
  1-3: (fault_case; [done|]; right; no_insert).
  fault_case.
  { fault_case; [done|]. right. no_insert. }
  unfold DB.view, DB.begin. state. cbn [default DB.tx DB.committed].
  fault_case.
  { fault_case; [done|]. fault_case; [done|]. right. undone. }
  destruct (_ || _); state.
  { fault_case; [done|]. fault_case; [done|]. right. undone. }
  match goal with
  | |- context [AuthController.signup_issue E fuel ?u ?s3] =>
      pose proof (signup_issue_in_transaction fuel u s3) as Hloop;
      destruct (AuthController.signup_issue E fuel u s3) as [token s4|err s4|]
  end; [| |done].
  - destruct Hloop as (Hc & Ht & Hflag & l & Hout & Hl); [state; cbn; eauto|].
    revert Hc Ht Hflag Hout. state. cbn [DB.update DB.tx DB.committed].
    intros Hc [st Ht] Hflag Hout.
    fault_case.
    { rewrite Hflag. fault_case; [done|]. fault_case; [done|]. right. undone. }
    fault_case.
    { rewrite Hflag. fault_case; [done|]. fault_case; [done|]. right. undone. }
    fault_case; [done|].
    left. since_explicit. rewrite !elem_of_app, !list_elem_of_singleton. tauto.
  - destruct Hloop as (Hc & Ht & Hflag & l & Hout & Hl); [state; cbn; eauto|].
    revert Hc Ht Hflag Hout. state. cbn [DB.update DB.tx DB.committed].
    intros Hc [st Ht] Hflag Hout.
    rewrite Hflag. fault_case; [done|]. fault_case; [done|]. right. undone.
Qed.






(** C1, as the code has it: a signup that reached the user insert and
    did not answer with success leaves the committed User and Token
    stores as they were and no transaction open; the generic 500 is sent
    first, and the rollback and the release of the client follow it. *)
Theorem signup_rolls_back (fuel : nat) (req : Request) (s s' : State) :
  DB.tx (db s) = None →
  AuthController.signup E fuel req s = Ok tt s' →
  insert_reached (since s s') →
  ESend 204 NoBody ∉ since s s' →
  DB.committed (db s') = DB.committed (db s)
  ∧ DB.tx (db s') = None
  ∧ ∃ err, [ELog err; ESend 500 GenericError; ECall (ClientQuery "ROLLBACK");
            ECall ClientRelease] `suffix_of` since s s'.
Proof.
  intros Htx Hrun Hins Hno.
  pose proof (signup_outcome fuel req s Htx) as H. rewrite Hrun in H.
  destruct H as [H|(Hc & Ht & Hsuffix)]; [done|]. auto.
Qed.

End SignupFacts.

(** C1, counterexample: the mail service fails after the user row and the
    token row are in.  The generic 500 is event 6 of the run and the
    ROLLBACK query is event 7: the answer goes out before the rollback. *)
Lemma signup_responds_before_rollback :
  let E := Sample.mail_down in
  let s := Sample.empty in
  ∃ s', AuthController.signup E 3 Sample.signup_al s = Ok tt s'
        ∧ position is_error_response (since s s') = Some 6%nat
        ∧ position is_rollback (since s s') = Some 7%nat
        ∧ db s' = db s.
Proof.
  eexists. split; [vm_compute; reflexivity|]. repeat split; vm_compute; reflexivity.
Qed.

(** ** The theorems at work on the sample worlds *)

Lemma quiet_no_faults : no_faults Sample.quiet.
Proof. intros n. reflexivity. Defined.

Lemma with_taken_unique : unique_tokens (DB.committed (db Sample.with_taken)).
Proof. apply NoDup_singleton. Defined.

Lemma with_reset_unique : unique_tokens (DB.committed (db Sample.with_reset)).
Proof. apply NoDup_singleton. Defined.

Lemma with_reset_issued :
  issued (DB.committed (db Sample.with_reset)) Sample.reset "r0" Password.
Proof. split; [apply list_elem_of_here|split; vm_compute; reflexivity]. Defined.

Lemma al_owns (tokens : list Obj) :
  has_user (DB.committed (db (Sample.world [Sample.al] tokens 1000))) (VStr "7").
Proof. exists Sample.al. split; [apply list_elem_of_here|vm_compute; reflexivity]. Defined.

Lemma signup_rolls_back_witness :
  ∃ s', AuthController.signup Sample.mail_down 3 Sample.signup_al Sample.empty = Ok tt s'
        ∧ DB.committed (db s') = DB.committed (db Sample.empty)
        ∧ DB.tx (db s') = None.
Proof.
  eexists. split; [vm_compute; reflexivity|].
  edestruct (signup_rolls_back Sample.mail_down 3 Sample.signup_al Sample.empty)
    as (Hc & Ht & _); [reflexivity|vm_compute; reflexivity| | |split; [exact Hc|exact Ht]].
  - exists (VStr "al"), (VStr "a@x.com"), (VStr "#p"), 1, (VStr "Al").
    apply list_elem_of_lookup. exists 2%nat. vm_compute. reflexivity.
  - intros H. apply list_elem_of_In in H. vm_compute in H. intuition discriminate.
Defined.

Lemma signup_issue_after_collisions_witness :
  ∃ s', AuthController.signup_issue Sample.quiet 5 (VStr "7") Sample.with_taken
        = Ok "t1" s'.
Proof.
  destruct (signup_issue_after_collisions Sample.quiet 1 5 (VStr "7") Sample.with_taken)
    as (s' & Hrun & _).
  - exact quiet_no_faults.
  - intros k Hk. assert (k = 0%nat) as -> by lia. reflexivity.
  - reflexivity.
  - lia.
  - exists s'. exact Hrun.
Defined.

Lemma verify_once_witness :
  ∃ s1 s2, AuthController.verify Sample.quiet Sample.verify_t0 Sample.with_taken = Ok tt s1
           ∧ AuthController.verify Sample.quiet Sample.verify_t0 s1 = Ok tt s2
           ∧ db s2 = db s1.
Proof.
  destruct (verify_once Sample.quiet Sample.verify_t0 Sample.with_taken Sample.taken)
    as (s1 & s2 & Hrun & _ & _ & _ & _ & Hagain & Hdb & _).
  - exact quiet_no_faults.
  - exact with_taken_unique.
  - split; [apply list_elem_of_here|split; vm_compute; reflexivity].
  - exact (al_owns [Sample.taken]).
  - exists s1, s2. split; [exact Hrun|split; [exact Hagain|exact Hdb]].
Defined.

Lemma verifyRecovery_read_only_witness :
  ∃ s', AuthController.verifyRecovery Sample.quiet Sample.reset_r0 Sample.with_reset
        = Ok tt s'
        ∧ db s' = db Sample.with_reset.
Proof.
  destruct (verifyRecovery_read_only Sample.quiet Sample.reset_r0 Sample.with_reset
              Sample.reset 0) as (s' & Hrun & Hdb & _).
  - exact quiet_no_faults.
  - exact with_reset_unique.
  - exact with_reset_issued.
  - reflexivity.
  - reflexivity.
  - exists s'. split; [exact Hrun|exact Hdb].
Defined.

Lemma updateUser_gated_witness :
  ∃ (s' : State) (profile admin : Obj),
    UserController.updateUser Sample.quiet Sample.promote_al Sample.with_al = Ok tt s'
    ∧ persisted (since Sample.with_al s') = [(VStr "7", admin)]
    ∧ is_Some (admin !! "role_id").
Proof.
  destruct (updateUser_gated Sample.quiet Sample.promote_al Sample.with_al)
    as (s' & profile & admin & Hrun & _ & Ha & _ & Hexact).
  assert (Hrole : is_Some (admin !! "role_id")).
  { apply Ha. split; [reflexivity|]. exists (VNum 2). vm_compute. reflexivity. }
  exists s', profile, admin. split; [exact Hrun|]. split; [|exact Hrole].
  rewrite Hexact; [|exact quiet_no_faults|left; vm_compute; reflexivity].
  unfold gated_calls.
  rewrite bool_decide_eq_false_2 by (intros [H _]; vm_compute in H; discriminate).
  rewrite bool_decide_eq_true_2; [reflexivity|].
  split; [reflexivity|]. intros ->. destruct Hrole as [v Hv].
  rewrite lookup_empty in Hv. discriminate.
Defined.

Lemma updateUser_credential_witness :
  ∃ s' newToken,
    UserController.updateUser Sample.quiet Sample.rename_bob Sample.with_al = Ok tt s'
    ∧ responses (since Sample.with_al s')
      = [ECookie newToken; ESend 200 (NewTokenBody newToken)].
Proof.
  destruct (updateUser_credential Sample.quiet Sample.rename_bob Sample.with_al)
    as (s' & Hrun & Hiff & _).
  - exact quiet_no_faults.
  - reflexivity.
  - left. reflexivity.
  - destruct (proj2 Hiff) as [newToken Hresp]; [reflexivity|].
    exists s', newToken. split; [exact Hrun|exact Hresp].
Defined.

Lemma deleteUser_unconditional_witness :
  ∃ s', UserController.deleteUser Sample.quiet Sample.delete_al Sample.with_al = Ok tt s'
        ∧ since Sample.with_al s' = [ECall (UserDelete (VStr "7")); ESend 204 NoBody].
Proof.
  destruct (deleteUser_unconditional Sample.quiet Sample.delete_al Sample.with_al)
    as (s' & Hrun & Hout & _); [reflexivity|].
  exists s'. split; [exact Hrun|exact Hout].
Defined.

(** * Further properties *)

(** ** Tools *)

Ltac faulty E :=
  match goal with
  | |- context [fault E ?n] => destruct (fault E n) eqn:?; state
  end.

Ltac explicit_since :=
  erewrite since_app;
  [|state; repeat match goal with H : out _ = _ |- _ => rewrite H end;
    rewrite <- ?app_assoc; reflexivity].

Lemma answers_app (l1 l2 : list Event) : answers (l1 ++ l2) = answers l1 ++ answers l2.
Proof. apply List.filter_app. Qed.

Lemma answers_of_responses (l : list Event) : responses l = [] → answers l = [].
Proof.
  induction l as [|e l IH]; [done|]. unfold responses, answers. simpl.
  destruct e; simpl; try done; apply IH.
Qed.

Lemma get_new_user (id : string) (username email password : JsVal) (role_id : Z)
    (name : JsVal) :
  get (DB.new_user id username email password role_id name) "user_id" = VStr id
  ∧ get (DB.new_user id username email password role_id name) "username" = username
  ∧ get (DB.new_user id username email password role_id name) "email" = email
  ∧ get (DB.new_user id username email password role_id name) "password" = password
  ∧ get (DB.new_user id username email password role_id name) "verified" = VBool false.
Proof. repeat split; reflexivity. Qed.

Section SignupMore.

Context (E : Collaborators).

(** X1: a signup whose body lacks a field is answered 400 with the message
    that names the four fields; a client is borrowed and released, no
    statement is sent and the database is as before. *)
Theorem signup_incomplete_body (fuel : nat) (req : Request) (s : State) :
  incomplete req →
  fault E (ticks s) = None →
  fault E (S (ticks s)) = None →
  ∃ s', AuthController.signup E fuel req s = Ok tt s'
        ∧ since s s'
          = [ECall PoolConnect;
             ESend 400 (Message "Body must include username, email, password, and name");
             ECall ClientRelease]
        ∧ db s' = db s.
Proof.
  intros Hinc Hf0 Hf1.
  assert (Hcond : strict_eq (get (body req) "username") VUndef
                  || strict_eq (get (body req) "email") VUndef
                  || strict_eq (get (body req) "password") VUndef
                  || strict_eq (get (body req) "name") VUndef = true).
  { destruct Hinc as [H|[H|[H|H]]]; rewrite H; cbn [strict_eq];
      rewrite ?orb_true_r; reflexivity. }
  unfold AuthController.signup, pool_connect, client_release.
  rewrite Hcond. monad. unfold call. state. rewrite Hf0. state. rewrite Hf1.
  eexists. split; [reflexivity|]. split; [explicit_since; reflexivity|]. by state.
Qed.

(** X2: when the pool cannot give a client the signup handler fails
    without answering: the request gets no response at all, nothing is
    released and the database is as before. *)
Theorem signup_without_client (fuel : nat) (req : Request) (s : State) (code : JsVal) :
  fault E (ticks s) = Some code →
  ∃ s', AuthController.signup E fuel req s = Throw (Failure code) s'
        ∧ since s s' = [ECall PoolConnect]
        ∧ db s' = db s.
Proof.
  intros Hf. unfold AuthController.signup, pool_connect. monad. unfold call. state.
  rewrite Hf. eexists. split; [reflexivity|]. split; [explicit_since; reflexivity|].
  by state.
Qed.

(** The signup that succeeds at the first draw, with its exact effect. *)
Lemma signup_effect (fuel : nat) (req : Request) (s : State) (p : string) :
  no_faults E →
  DB.tx (db s) = None →
  get (body req) "username" ≠ VUndef →
  get (body req) "email" ≠ VUndef →
  get (body req) "name" ≠ VUndef →
  get (body req) "password" = VStr p →
  DB.has "username" (get (body req) "username") (DB.users (DB.committed (db s))) = false →
  DB.has "email" (get (body req) "email") (DB.users (DB.committed (db s))) = false →
  DB.has "token" (VStr (generateShortToken E (draws s)))
    (DB.tokens (DB.committed (db s))) = false →
  let user := DB.new_user (fresh_user_id E (serial s)) (get (body req) "username")
                (get (body req) "email") (VStr (bcrypt_hash E p)) 1
                (get (body req) "name") in
  let token := generateShortToken E (draws s) in
  ∃ s', AuthController.signup E (S fuel) req s = Ok tt s'
        ∧ responses (since s s') = [ESend 204 NoBody]
        ∧ DB.tx (db s') = None
        ∧ DB.users (DB.committed (db s')) = DB.users (DB.committed (db s)) ++ [user]
        ∧ DB.tokens (DB.committed (db s'))
          = DB.tokens (DB.committed (db s))
            ++ [DB.new_token (VStr (fresh_user_id E (serial s))) token Verification
                  (clock s)]
        ∧ mails (since s s')
          = [mkEmail "Account Verification Request" (get (body req) "email")
               (hostAddress E) (get (body req) "username")
               ("http://" +:+ host req +:+ "/api/auth/verify/" +:+ token)].
Proof.
  intros Hnf Htx Hu He Hn Hp Hfu Hfe Hft. cbv zeta.
  unfold AuthController.signup, AuthController.sendVerificationEmail.
  rewrite client_query_begin, client_query_commit, client_query_rollback.
  unfold pool_connect, client_release, User_create, smtp_sendEmail, bcrypt.
  rewrite Hp, (strict_eq_false _ _ Hu), (strict_eq_false _ _ He), (strict_eq_false _ _ Hn).
  cbn [strict_eq orb]. monad. calm Hnf.
  unfold DB.view, DB.begin. calm Hnf. cbn [default from_option id DB.tx DB.committed].
  rewrite Hfu, Hfe. cbn [orb]. state.
  destruct (get_new_user (fresh_user_id E (serial s)) (get (body req) "username")
              (get (body req) "email") (VStr (bcrypt_hash E p)) 1 (get (body req) "name"))
    as (Gid & Gu & Ge & _).
  rewrite Gid.
  match goal with
  | |- context [AuthController.signup_issue E (S fuel) ?u ?s3] =>
      rewrite (signup_issue_fresh E fuel u s3) by (state; first [apply Hnf|done])
  end.
  calm Hnf. cbn [DB.update DB.commit DB.tx DB.committed default from_option id].
  rewrite Ge, Gu.
  eexists. split; [reflexivity|]. state.
  split; [explicit_since; reflexivity|]. split; [reflexivity|].
  split; [reflexivity|]. split; [reflexivity|]. explicit_since. reflexivity.
Qed.

(** X3: a signup that meets no failure, with a free username and address
    and a free first short token, is answered 204 and commits exactly one
    user row, not verified, with role 1 and the hash of the password in
    place of the password, and exactly one verification token row owned
    by that user; one mail goes to the address, with the link that
    carries the token. *)
Theorem signup_success (fuel : nat) (req : Request) (s : State) (p : string) :
  no_faults E →
  DB.tx (db s) = None →
  get (body req) "username" ≠ VUndef →
  get (body req) "email" ≠ VUndef →
  get (body req) "name" ≠ VUndef →
  get (body req) "password" = VStr p →
  DB.has "username" (get (body req) "username") (DB.users (DB.committed (db s))) = false →
  DB.has "email" (get (body req) "email") (DB.users (DB.committed (db s))) = false →
  DB.has "token" (VStr (generateShortToken E (draws s)))
    (DB.tokens (DB.committed (db s))) = false →
  let user := DB.new_user (fresh_user_id E (serial s)) (get (body req) "username")
                (get (body req) "email") (VStr (bcrypt_hash E p)) 1
                (get (body req) "name") in
  let token := generateShortToken E (draws s) in
  ∃ s', AuthController.signup E (S fuel) req s = Ok tt s'
        ∧ responses (since s s') = [ESend 204 NoBody]
        ∧ DB.tx (db s') = None
        ∧ DB.users (DB.committed (db s')) = DB.users (DB.committed (db s)) ++ [user]
        ∧ DB.tokens (DB.committed (db s'))
          = DB.tokens (DB.committed (db s))
            ++ [DB.new_token (VStr (fresh_user_id E (serial s))) token Verification
                  (clock s)]
        ∧ mails (since s s')
          = [mkEmail "Account Verification Request" (get (body req) "email")
               (hostAddress E) (get (body req) "username")
               ("http://" +:+ host req +:+ "/api/auth/verify/" +:+ token)].
Proof. apply signup_effect. Qed.

(** A leaf of the case analysis of a signup run. *)
Ltac closing :=
  explicit_since; rewrite ?answers_app;
  repeat match goal with H : answers _ = [] |- _ => rewrite H end;
  reflexivity.

Ltac last_event :=
  explicit_since; repeat first [solve [reflexivity] | apply suffix_app_r].

Ltac thrown :=
  first
    [ left; explicit_since; reflexivity
    | right; left; split; [closing|]; split; [last_event|];
      state; cbn [DB.tx]; solve [eauto]
    | right; right; split; [closing|]; last_event ].

Ltac ended :=
  split; [closing|];
  split; [state; cbn [DB.rollback DB.commit DB.tx DB.committed]; done|];
  explicit_since; repeat first [solve [reflexivity] | apply suffix_app_r].

Lemma signup_ends (fuel : nat) (req : Request) (s : State) :
  DB.tx (db s) = None →
  match AuthController.signup E fuel req s with
  | Ok _ s' => length (answers (since s s')) = 1%nat
               ∧ DB.tx (db s') = None
               ∧ [ECall ClientRelease] `suffix_of` since s s'
  | Throw _ s' =>
      since s s' = [ECall PoolConnect]
      ∨ (length (answers (since s s')) = 1%nat
         ∧ [ECall (ClientQuery "ROLLBACK")] `suffix_of` since s s'
         ∧ is_Some (DB.tx (db s')))
      ∨ (length (answers (since s s')) = 1%nat
         ∧ [ECall ClientRelease] `suffix_of` since s s')
  | Diverge => True
  end.
Proof.
  intros Htx.
  unfold AuthController.signup, AuthController.sendVerificationEmail.
  rewrite client_query_begin, client_query_commit, client_query_rollback.
  unfold pool_connect, client_release, User_create, smtp_sendEmail, bcrypt.
  monad. unfold call. state.
  faulty E; [thrown|].
  destruct (_ || _); state.
  { faulty E; [thrown|ended]. }
  destruct (get (body req) "password"); state.
  1-3: (faulty E; [thrown|ended]).
  faulty E.
  { faulty E; [thrown|ended]. }
  unfold DB.view, DB.begin. state. cbn [default from_option id DB.tx DB.committed].
  faulty E.
  { faulty E; [thrown|]. faulty E; [thrown|ended]. }
  destruct (_ || _); state.
  { faulty E; [thrown|]. faulty E; [thrown|ended]. }
  match goal with
  | |- context [AuthController.signup_issue E fuel ?u ?s3] =>
      pose proof (signup_issue_in_transaction E fuel u s3) as Hloop;
      destruct (AuthController.signup_issue E fuel u s3) as [token s4|err s4|]
  end; [| |done].
  - destruct Hloop as (Hc & Ht & Hflag & l & Hout & Hl); [state; cbn; eauto|].
    apply answers_of_responses in Hl.
    revert Hc Ht Hflag Hout. state. cbn [DB.update DB.tx DB.committed].
    intros Hc [st Ht] Hflag Hout.
    faulty E.
    { rewrite Hflag. faulty E; [thrown|]. faulty E; [thrown|ended]. }
    faulty E.
    { rewrite Hflag. faulty E; [thrown|]. faulty E; [thrown|ended]. }
    faulty E; [thrown|ended].
  - destruct Hloop as (Hc & Ht & Hflag & l & Hout & Hl); [state; cbn; eauto|].
    apply answers_of_responses in Hl.
    revert Hc Ht Hflag Hout. state. cbn [DB.update DB.tx DB.committed].
    intros Hc [st Ht] Hflag Hout.
    rewrite Hflag. faulty E; [thrown|]. faulty E; [thrown|ended].
Qed.

(** X4: whatever fails, a signup that completes has answered the request
    exactly once, has no transaction open and ended by releasing its
    client.  A signup that fails has not answered at all when the pool
    gave no client; otherwise it has answered exactly once and failed in
    its cleanup: at the release, or at the ROLLBACK, and then the
    transaction is still open and the client is not released. *)
Theorem signup_answers_once (fuel : nat) (req : Request) (s : State) :
  DB.tx (db s) = None →
  (∀ s', AuthController.signup E fuel req s = Ok tt s' →
         length (answers (since s s')) = 1%nat
         ∧ DB.tx (db s') = None
         ∧ [ECall ClientRelease] `suffix_of` since s s')
  ∧ (∀ err s', AuthController.signup E fuel req s = Throw err s' →
               since s s' = [ECall PoolConnect]
               ∨ (length (answers (since s s')) = 1%nat
                  ∧ [ECall (ClientQuery "ROLLBACK")] `suffix_of` since s s'
                  ∧ is_Some (DB.tx (db s')))
               ∨ (length (answers (since s s')) = 1%nat
                  ∧ [ECall ClientRelease] `suffix_of` since s s')).
Proof.
  intros Htx. pose proof (signup_ends fuel req s Htx) as H. split.
  - intros s' Hrun. by rewrite Hrun in H.
  - intros err s' Hrun. by rewrite Hrun in H.
Qed.

End SignupMore.

(** ** Redeeming tokens *)

Lemma find_other_type (value : string) (type : SessionTokenType) (rows : list Obj) :
  (∀ row, row ∈ rows → get row "token" = VStr value → get row "type" ≠ type_value type) →
  DB.find (token_filter value type) rows = [].
Proof.
  intros H. apply find_none. intros row Hin.
  destruct (DB.matches (token_filter value type) row) eqn:Hm; [|done].
  apply matches_token_filter in Hm as [Hv Ht]. by destruct (H row Hin Hv).
Qed.

Lemma union_singleton_insert (k : string) (v : JsVal) (row : Obj) :
  of_arrays [k] [v] ∪ row = <[k := v]> row.
Proof.
  unfold of_arrays. simpl. rewrite <- insert_union_l. by rewrite (left_id_L ∅ (∪)).
Qed.

Section TokenFacts.

Context (E : Collaborators).

(** X5: the verification endpoint redeems verification tokens only.  When
    no row of the presented value has the verification type (the value is
    unknown, or it is the value of a password token) the answer is the
    redirect to the login page after a single lookup, and the database is
    as before: nobody is verified and no token is consumed. *)
Theorem verify_ignores_other_tokens (req : Request) (s : State) :
  fault E (ticks s) = None →
  (∀ row, row ∈ DB.tokens (DB.committed (db s)) →
          get row "token" = VStr (params_token req) →
          get row "type" ≠ type_value Verification) →
  ∃ s', AuthController.verify E req s = Ok tt s'
        ∧ since s s' = [ECall (TokenFind (token_filter (params_token req) Verification));
                        ERedirect "/login"]
        ∧ db s' = db s.
Proof.
  intros Hf Hno. unfold AuthController.verify, Token_findTokens. monad. filters.
  unfold call. rewrite Hf. state. unfold DB.view. rewrite (find_other_type _ _ _ Hno).
  eexists. split; [reflexivity|]. split; [explicit_since; reflexivity|]. by state.
Qed.

(** X6: the recovery endpoints redeem password tokens only.  When no row
    of the presented value has the password type (the value is unknown, or
    it is the value of a verification token) both the verify step and the
    process step answer 400 with the generic message after a single
    lookup, and the database is as before: no password is set and no
    token is consumed. *)
Theorem recovery_rejects_other_tokens (req : Request) (s : State) :
  fault E (ticks s) = None →
  get (body req) "password" ≠ VUndef →
  (∀ row, row ∈ DB.tokens (DB.committed (db s)) →
          get row "token" = VStr (params_token req) →
          get row "type" ≠ type_value Password) →
  (∃ s', AuthController.verifyRecovery E req s = Ok tt s'
         ∧ since s s' = [ECall (TokenFind (token_filter (params_token req) Password));
                         ESend 400 GenericError]
         ∧ db s' = db s)
  ∧ (∃ s', AuthController.processRecovery E req s = Ok tt s'
           ∧ since s s' = [ECall (TokenFind (token_filter (params_token req) Password));
                           ESend 400 GenericError]
           ∧ db s' = db s).
Proof.
  intros Hf Hp Hno. split.
  - unfold AuthController.verifyRecovery, Token_findTokens. monad. filters.
    unfold call. rewrite Hf. state. unfold DB.view. rewrite (find_other_type _ _ _ Hno).
    eexists. split; [reflexivity|]. split; [explicit_since; reflexivity|]. by state.
  - unfold AuthController.processRecovery, Token_findTokens.
    rewrite (strict_eq_false _ _ Hp). monad. filters.
    unfold call. rewrite Hf. state. unfold DB.view. rewrite (find_other_type _ _ _ Hno).
    eexists. split; [reflexivity|]. split; [explicit_since; reflexivity|]. by state.
Qed.

(** X7: a verification token whose owner is gone is an internal error:
    the handler answers 500 with the generic message after the two
    lookups, logs nothing, and leaves the token in place. *)
Theorem verify_orphan_token (req : Request) (s : State) (token : Obj) :
  no_faults E →
  unique_tokens (DB.committed (db s)) →
  issued (DB.committed (db s)) token (params_token req) Verification →
  (∀ user, user ∈ DB.users (DB.committed (db s)) →
           get user "user_id" ≠ get token "user_id") →
  ∃ s', AuthController.verify E req s = Ok tt s'
        ∧ since s s'
          = [ECall (TokenFind (token_filter (params_token req) Verification));
             ECall (UserFind (of_arrays ["user_id"] [get token "user_id"]));
             ESend 500 GenericError]
        ∧ db s' = db s.
Proof.
  intros Hnf Hu Hi Hgone.
  unfold AuthController.verify, Token_findTokens, User_findUsers. monad. filters.
  calm Hnf. unfold DB.view. rewrite (find_issued _ _ _ _ Hu Hi). calm Hnf.
  rewrite (find_no_field _ _ _ Hgone).
  eexists. split; [reflexivity|]. split; [explicit_since; reflexivity|]. by state.
Qed.

(** The run of a redemption that succeeds, with its exact effect. *)
Lemma verify_effect (req : Request) (s : State) (token : Obj) :
  no_faults E →
  unique_tokens (DB.committed (db s)) →
  issued (DB.committed (db s)) token (params_token req) Verification →
  has_user (DB.committed (db s)) (get token "user_id") →
  ∃ s', AuthController.verify E req s = Ok tt s'
        ∧ responses (since s s') = [ERedirect "/login"]
        ∧ map is_write (calls (since s s')) = [false; false; true; true]
        ∧ DB.users (DB.committed (db s'))
          = map (λ row, if strict_eq (get row "user_id") (get token "user_id")
                        then <["verified" := VBool true]> row else row)
              (DB.users (DB.committed (db s)))
        ∧ DB.tokens (DB.committed (db s'))
          = List.filter (λ row, negb (strict_eq (get row "token") (VStr (params_token req))))
              (DB.tokens (DB.committed (db s)))
        ∧ DB.tx (db s') = DB.tx (db s)
        ∧ clock s' = clock s.
Proof.
  intros Hnf Hu Hi Hown.
  destruct (find_user _ _ Hown) as (user & rest & Hfind & Hid).
  pose proof Hi as (Hin & Htok & Hty).
  unfold AuthController.verify, Token_findTokens, User_findUsers, User_setAttributes,
    Token_deleteToken.
  monad. filters. calm Hnf. unfold DB.view.
  rewrite (find_issued _ _ _ _ Hu Hi). calm Hnf.
  rewrite Hfind. calm Hnf. rewrite Hid, Htok.
  eexists. split; [reflexivity|].
  split; [explicit_since; reflexivity|]. split; [explicit_since; reflexivity|].
  state. unfold DB.update. cbn [DB.committed DB.tx DB.set_attributes DB.delete_token
                                 DB.users DB.tokens].
  split; [|done].
  apply map_ext. intros row. destruct (strict_eq _ _); [|done].
  apply union_singleton_insert.
Qed.

(** X8: a successful redemption of a verification token changes nothing
    but the [verified] attribute of the rows of the owner, which becomes
    true, and the rows of the redeemed token value, which are removed;
    every other attribute, user and token is as before. *)
Theorem verify_changes_only (req : Request) (s : State) (token : Obj) :
  no_faults E →
  unique_tokens (DB.committed (db s)) →
  issued (DB.committed (db s)) token (params_token req) Verification →
  has_user (DB.committed (db s)) (get token "user_id") →
  ∃ s', AuthController.verify E req s = Ok tt s'
        ∧ DB.users (DB.committed (db s'))
          = map (λ row, if strict_eq (get row "user_id") (get token "user_id")
                        then <["verified" := VBool true]> row else row)
              (DB.users (DB.committed (db s)))
        ∧ DB.tokens (DB.committed (db s'))
          = List.filter (λ row, negb (strict_eq (get row "token") (VStr (params_token req))))
              (DB.tokens (DB.committed (db s)))
        ∧ DB.tx (db s') = DB.tx (db s).
Proof.
  intros Hnf Hu Hi Hown.
  destruct (verify_effect req s token Hnf Hu Hi Hown)
    as (s' & Hrun & _ & _ & Hus & Htk & Htx & _).
  by exists s'.
Qed.

End TokenFacts.

(** ** Issuing and redeeming *)

Lemma has_false (field : string) (v : JsVal) (rows : list Obj) :
  DB.has field v rows = false → v ∉ map (λ row, get row field) rows.
Proof.
  intros H Hin. apply list_elem_of_fmap in Hin as (row & -> & Hrow).
  assert (DB.has field (get row field) rows = true); [|congruence].
  unfold DB.has. apply existsb_exists. exists row. split.
  - by apply list_elem_of_In.
  - apply strict_eq_refl.
Qed.

Lemma get_new_token (user_id : JsVal) (token : string) (type : SessionTokenType) (now : Z) :
  get (DB.new_token user_id token type now) "token" = VStr token
  ∧ get (DB.new_token user_id token type now) "type" = type_value type
  ∧ get (DB.new_token user_id token type now) "user_id" = user_id
  ∧ get (DB.new_token user_id token type now) "created_at" = VNum now.
Proof. repeat split; reflexivity. Qed.

(** Inserting a token of a free value keeps the uniqueness constraint and
    makes the token one that is in the store. *)
Lemma add_token_unique (st : DB.Stores) (user_id : JsVal) (token : string)
    (type : SessionTokenType) (now : Z) (users : list Obj) :
  unique_tokens st →
  DB.has "token" (VStr token) (DB.tokens st) = false →
  let row := DB.new_token user_id token type now in
  unique_tokens (DB.mkStores users (DB.tokens st ++ [row]))
  ∧ issued (DB.mkStores users (DB.tokens st ++ [row])) row token type.
Proof.
  intros Hu Hfree row.
  destruct (get_new_token user_id token type now) as (Gt & Gy & _).
  split.
  - unfold unique_tokens. simpl. rewrite map_app. simpl. fold row.
    apply NoDup_app. split; [done|]. split; [|apply NoDup_singleton].
    intros v Hv Hv'. apply list_elem_of_singleton in Hv'. subst v.
    unfold row in Hv. rewrite Gt in Hv. by apply has_false in Hfree.
  - split; [|done]. simpl. apply elem_of_app. right. by apply list_elem_of_singleton.
Qed.

Section RoundTrips.

Context (E : Collaborators).

(** The process step that succeeds, with its exact effect. *)
Lemma processRecovery_effect (req : Request) (s : State) (token : Obj) (t : Z) (p : string) :
  no_faults E →
  unique_tokens (DB.committed (db s)) →
  issued (DB.committed (db s)) token (params_token req) Password →
  get token "created_at" = VNum t →
  clock s - t < TTL E →
  get (body req) "password" = VStr p →
  has_user (DB.committed (db s)) (get token "user_id") →
  ∃ s' user,
    AuthController.processRecovery E req s = Ok tt s'
    ∧ user ∈ DB.users (DB.committed (db s))
    ∧ get user "user_id" = get token "user_id"
    ∧ responses (since s s')
      = [ECookie (generateUserAuthToken E user req);
         ESend 200 (TokenBody (generateUserAuthToken E user req))]
    ∧ DB.users (DB.committed (db s'))
      = map (λ row, if strict_eq (get row "user_id") (get token "user_id")
                    then <["password" := VStr (bcrypt_hash E p)]> row else row)
          (DB.users (DB.committed (db s)))
    ∧ DB.tokens (DB.committed (db s'))
      = DB.tokens (DB.delete_token (VStr (params_token req)) (DB.committed (db s)))
    ∧ DB.tx (db s') = DB.tx (db s)
    ∧ clock s' = clock s.
Proof.
  intros Hnf Hu Hi Hc Hage Hp Hown.
  destruct (find_user _ _ Hown) as (user & rest & Hfind & Hid).
  unfold AuthController.processRecovery, Token_findTokens, isPasswordTokenExpired,
    User_findUsers, User_setAttributes, Token_deleteToken, bcrypt.
  rewrite Hp. monad. filters. calm Hnf. unfold DB.view.
  rewrite (find_issued _ _ _ _ Hu Hi). rewrite Hc. calm Hnf.
  rewrite (proj2 (Z.ltb_lt _ _) Hage). cbn [negb]. calm Hnf.
  rewrite Hfind. calm Hnf.
  eexists. exists user. split; [reflexivity|].
  assert (Huser : user ∈ DB.find (of_arrays ["user_id"] [get token "user_id"])
                           (DB.users (DB.committed (db s)))) by (rewrite Hfind; left).
  apply find_elem in Huser as [Huser _].
  split; [done|]. split; [done|].
  split; [explicit_since; reflexivity|].
  state. unfold DB.update. cbn [DB.committed DB.tx DB.set_attributes DB.delete_token
                                 DB.users DB.tokens].
  split; [|done].
  apply map_ext. intros row. destruct (strict_eq _ _); [|done].
  apply union_singleton_insert.
Qed.

(** X9: the process step of a recovery, on a password token that is in the
    store and younger than TTL, sets the password attribute of the owner's
    rows to the hash of the new password and changes no other attribute
    or user, removes the rows of the token value, and answers with a
    session credential set as a cookie and returned in the body.  The
    token is consumed: the same request again is answered 400 with the
    generic message and changes nothing. *)
Theorem processRecovery_once (req : Request) (s : State) (token : Obj) (t : Z) (p : string) :
  no_faults E →
  unique_tokens (DB.committed (db s)) →
  issued (DB.committed (db s)) token (params_token req) Password →
  get token "created_at" = VNum t →
  clock s - t < TTL E →
  get (body req) "password" = VStr p →
  has_user (DB.committed (db s)) (get token "user_id") →
  ∃ s1 s2 authToken,
    AuthController.processRecovery E req s = Ok tt s1
    ∧ responses (since s s1) = [ECookie authToken; ESend 200 (TokenBody authToken)]
    ∧ DB.users (DB.committed (db s1))
      = map (λ row, if strict_eq (get row "user_id") (get token "user_id")
                    then <["password" := VStr (bcrypt_hash E p)]> row else row)
          (DB.users (DB.committed (db s)))
    ∧ (∀ row, row ∈ DB.tokens (DB.committed (db s1))
              ↔ row ∈ DB.tokens (DB.committed (db s))
                ∧ get row "token" ≠ VStr (params_token req))
    ∧ AuthController.processRecovery E req s1 = Ok tt s2
    ∧ since s1 s2 = [ECall (TokenFind (token_filter (params_token req) Password));
                     ESend 400 GenericError]
    ∧ db s2 = db s1.
Proof.
  intros Hnf Hu Hi Hc Hage Hp Hown.
  destruct (processRecovery_effect req s token t p Hnf Hu Hi Hc Hage Hp Hown)
    as (s1 & user & Hrun & _ & _ & Hresp & Hus & Htk & _).
  assert (Hreplay : ∃ s2, AuthController.processRecovery E req s1 = Ok tt s2
            ∧ since s1 s2 = [ECall (TokenFind (token_filter (params_token req) Password));
                             ESend 400 GenericError]
            ∧ db s2 = db s1).
  { unfold AuthController.processRecovery, Token_findTokens.
    rewrite Hp. monad. filters. calm Hnf. unfold DB.view. rewrite Htk.
    rewrite delete_token_find.
    eexists. split; [reflexivity|]. split; [explicit_since; reflexivity|]. by state. }
  destruct Hreplay as (s2 & Hrun2 & Hout2 & Hdb2).
  exists s1, s2, (generateUserAuthToken E user req).
  split; [done|]. split; [done|]. split; [done|]. split; [|done].
  intros row. rewrite Htk. unfold DB.delete_token. simpl.
  rewrite !list_elem_of_In, filter_In, negb_true_iff.
  split; intros [H1 H2]; (split; [done|]).
  - intros Heq. apply strict_eq_spec in Heq. congruence.
  - by apply strict_eq_false.
Qed.

(** One round of the recovery loop with a free token, in full. *)
Lemma recovery_issue_first (fuel : nat) (user_id : JsVal) (s : State) :
  fault E (ticks s) = None →
  DB.has "token" (VStr (generateShortToken E (draws s)))
    (DB.tokens (DB.committed (db s))) = false →
  AuthController.recovery_issue E (S fuel) user_id s
  = Ok (generateShortToken E (draws s))
      (set_db (DB.update false
                 (DB.add_token (DB.new_token user_id (generateShortToken E (draws s))
                                  Password (clock s))))
         (tick (emit (ECall (TokenCreate user_id (generateShortToken E (draws s))
                               Password)) (next_draw s)))).
Proof.
  intros Hf Hfree. simpl. unfold shortToken, Token_create. monad.
  unfold call. state. rewrite Hf. unfold DB.view. state. by rewrite Hfree.
Qed.

(** The recovery request of a known address, with its exact effect. *)
Lemma recovery_effect (fuel : nat) (req : Request) (s : State) :
  no_faults E →
  get (body req) "email" ≠ VUndef →
  (∃ user, user ∈ DB.users (DB.committed (db s))
           ∧ get user "email" = get (body req) "email") →
  DB.has "token" (VStr (generateShortToken E (draws s)))
    (DB.tokens (DB.committed (db s))) = false →
  ∃ s' user,
    AuthController.recovery E (S fuel) req s = Ok tt s'
    ∧ user ∈ DB.users (DB.committed (db s))
    ∧ get user "email" = get (body req) "email"
    ∧ responses (since s s') = [ERedirect "/recover/sent"]
    ∧ mails (since s s')
      = [mkEmail "Password Recovery Request" (get user "email") (hostAddress E)
           (get user "username")
           ("http://" +:+ host req +:+ "/api/auth/recovery/verify/"
            +:+ generateShortToken E (draws s))]
    ∧ DB.committed (db s')
      = DB.mkStores (DB.users (DB.committed (db s)))
          (DB.tokens (DB.committed (db s))
           ++ [DB.new_token (get user "user_id") (generateShortToken E (draws s))
                 Password (clock s)])
    ∧ DB.tx (db s') = DB.tx (db s)
    ∧ clock s' = clock s.
Proof.
  intros Hnf He Hsome Hfresh.
  destruct (find_field _ _ _ Hsome) as (user & rest & Hfind & Hmail).
  assert (Huser : user ∈ DB.find (of_arrays ["email"] [get (body req) "email"])
                           (DB.users (DB.committed (db s)))) by (rewrite Hfind; left).
  apply find_elem in Huser as [Huser _].
  unfold AuthController.recovery, User_findUsers, AuthController.sendPasswordResetEmail,
    smtp_sendEmail.
  rewrite (strict_eq_false _ _ He).
  monad. unfold call at 1. rewrite !Hnf. state. unfold DB.view. rewrite Hfind.
  rewrite recovery_issue_first by (state; first [apply Hnf|done]).
  calm Hnf.
  eexists. exists user. split; [reflexivity|]. split; [done|]. split; [done|].
  split; [explicit_since; reflexivity|]. split; [explicit_since; reflexivity|].
  state. unfold DB.update. by cbn [DB.committed DB.tx DB.add_token DB.users DB.tokens].
Qed.

(** X10: a recovery request for the address of a user, when nothing fails
    and the drawn token is free, adds exactly one password token, owned
    by that user and stamped with the current time, and sends exactly one
    mail, to that address, whose link carries the token; the users and
    the other tokens are as before. *)
Theorem recovery_issues_one_token (fuel : nat) (req : Request) (s : State) :
  no_faults E →
  get (body req) "email" ≠ VUndef →
  (∃ user, user ∈ DB.users (DB.committed (db s))
           ∧ get user "email" = get (body req) "email") →
  DB.has "token" (VStr (generateShortToken E (draws s)))
    (DB.tokens (DB.committed (db s))) = false →
  ∃ s' user,
    AuthController.recovery E (S fuel) req s = Ok tt s'
    ∧ user ∈ DB.users (DB.committed (db s))
    ∧ get user "email" = get (body req) "email"
    ∧ DB.users (DB.committed (db s')) = DB.users (DB.committed (db s))
    ∧ DB.tokens (DB.committed (db s'))
      = DB.tokens (DB.committed (db s))
        ++ [DB.new_token (get user "user_id") (generateShortToken E (draws s))
              Password (clock s)]
    ∧ mails (since s s')
      = [mkEmail "Password Recovery Request" (get (body req) "email") (hostAddress E)
           (get user "username")
           ("http://" +:+ host req +:+ "/api/auth/recovery/verify/"
            +:+ generateShortToken E (draws s))].
Proof.
  intros Hnf He Hsome Hfresh.
  destruct (recovery_effect fuel req s Hnf He Hsome Hfresh)
    as (s' & user & Hrun & Hin & Hmail & _ & Hmails & Hdb & _).
  exists s', user. rewrite Hdb, Hmails, Hmail. done.
Qed.

(** X11: a recovery request for an address that no user has looks the
    address up and does nothing else: no token is created, no mail is
    sent, the database is as before. *)
Theorem recovery_unknown_address (fuel : nat) (req : Request) (s : State) :
  fault E (ticks s) = None →
  get (body req) "email" ≠ VUndef →
  (∀ user, user ∈ DB.users (DB.committed (db s))
           → get user "email" ≠ get (body req) "email") →
  ∃ s', AuthController.recovery E fuel req s = Ok tt s'
        ∧ since s s' = [ECall (UserFind (of_arrays ["email"] [get (body req) "email"]));
                        ERedirect "/recover/sent"]
        ∧ db s' = db s.
Proof.
  intros Hf He Hno. unfold AuthController.recovery, User_findUsers.
  rewrite (strict_eq_false _ _ He). monad. unfold call. rewrite Hf. state.
  unfold DB.view. rewrite (find_no_field _ _ _ Hno).
  eexists. split; [reflexivity|]. split; [explicit_since; reflexivity|]. by state.
Qed.

(** X12: issue, then redeem.  The token that a recovery request has just
    issued is accepted by the verify step, which redirects to its
    password page, for as long as less than TTL has passed since the
    request, and is refused with the generic 400 from then on. *)
Theorem recovery_then_verify (fuel : nat) (req req' : Request) (s : State) (d : Z) :
  no_faults E →
  unique_tokens (DB.committed (db s)) →
  get (body req) "email" ≠ VUndef →
  (∃ user, user ∈ DB.users (DB.committed (db s))
           ∧ get user "email" = get (body req) "email") →
  DB.has "token" (VStr (generateShortToken E (draws s)))
    (DB.tokens (DB.committed (db s))) = false →
  params_token req' = generateShortToken E (draws s) →
  ∃ s1 s2,
    AuthController.recovery E (S fuel) req s = Ok tt s1
    ∧ AuthController.verifyRecovery E req' (elapse d s1) = Ok tt s2
    ∧ db s2 = db s1
    ∧ responses (since (elapse d s1) s2)
      = [if d <? TTL E
         then ERedirect ("/recover/" +:+ generateShortToken E (draws s))
         else ESend 400 GenericError].
Proof.
  intros Hnf Hu He Hsome Hfresh Hreq.
  destruct (recovery_effect fuel req s Hnf He Hsome Hfresh)
    as (s1 & user & Hrun & _ & _ & _ & _ & Hdb & _ & Hclock).
  destruct (add_token_unique (DB.committed (db s)) (get user "user_id")
              (generateShortToken E (draws s)) Password (clock s)
              (DB.users (DB.committed (db s))) Hu Hfresh) as [Hu1 Hi1].
  rewrite <- Hdb in Hu1, Hi1. rewrite <- Hreq in Hi1.
  destruct (verifyRecovery_run E req' (elapse d s1) _ (clock s) Hnf Hu1 Hi1)
    as (s2 & Hrun2 & Hdb2 & Hout2); [reflexivity|].
  exists s1, s2. split; [done|]. split; [done|]. split; [done|].
  rewrite Hout2. cbn [elapse clock]. rewrite Hclock, Hreq.
  replace (clock s + d - clock s) with d by lia.
  by destruct (d <? TTL E).
Qed.

End RoundTrips.

Section SignupVerify.

Context (E : Collaborators).

Lemma stores_eta (st : DB.Stores) : st = DB.mkStores (DB.users st) (DB.tokens st).
Proof. by destruct st. Qed.

Lemma filter_free_value (value : JsVal) (rows : list Obj) :
  DB.has "token" value rows = false →
  List.filter (λ row, negb (strict_eq (get row "token") value)) rows = rows.
Proof.
  intros H. induction rows as [|row rows IH]; [done|].
  unfold DB.has in H. simpl in H. apply orb_false_elim in H as [Hrow Hrest].
  simpl. rewrite Hrow. simpl. f_equal. by apply IH.
Qed.

(** X13: sign up, then verify.  After a signup that succeeded, redeeming
    the token of the mail is answered by the redirect to the login page,
    leaves the new user's row in the store with [verified] true, and
    removes the token: the Token store is again what it was before the
    signup. *)
Theorem signup_then_verify (fuel : nat) (req req' : Request) (s : State) (p : string) :
  no_faults E →
  DB.tx (db s) = None →
  unique_tokens (DB.committed (db s)) →
  get (body req) "username" ≠ VUndef →
  get (body req) "email" ≠ VUndef →
  get (body req) "name" ≠ VUndef →
  get (body req) "password" = VStr p →
  DB.has "username" (get (body req) "username") (DB.users (DB.committed (db s))) = false →
  DB.has "email" (get (body req) "email") (DB.users (DB.committed (db s))) = false →
  DB.has "token" (VStr (generateShortToken E (draws s)))
    (DB.tokens (DB.committed (db s))) = false →
  params_token req' = generateShortToken E (draws s) →
  let user := DB.new_user (fresh_user_id E (serial s)) (get (body req) "username")
                (get (body req) "email") (VStr (bcrypt_hash E p)) 1
                (get (body req) "name") in
  ∃ s1 s2,
    AuthController.signup E (S fuel) req s = Ok tt s1
    ∧ AuthController.verify E req' s1 = Ok tt s2
    ∧ responses (since s1 s2) = [ERedirect "/login"]
    ∧ <["verified" := VBool true]> user ∈ DB.users (DB.committed (db s2))
    ∧ DB.tokens (DB.committed (db s2)) = DB.tokens (DB.committed (db s)).
Proof.
  intros Hnf Htx Hu Hn1 Hn2 Hn3 Hp Hfu Hfe Hft Hreq user.
  destruct (signup_effect E fuel req s p Hnf Htx Hn1 Hn2 Hn3 Hp Hfu Hfe Hft)
    as (s1 & Hrun & _ & _ & Hus & Htk & _).
  fold user in Hus.
  set (row := DB.new_token (VStr (fresh_user_id E (serial s)))
                (generateShortToken E (draws s)) Verification (clock s)) in *.
  destruct (add_token_unique (DB.committed (db s)) (VStr (fresh_user_id E (serial s)))
              (generateShortToken E (draws s)) Verification (clock s)
              (DB.users (DB.committed (db s)) ++ [user]) Hu Hft) as [Hu1 Hi1].
  fold row in Hu1, Hi1.
  rewrite <- Hus, <- Htk, <- stores_eta in Hu1, Hi1. rewrite <- Hreq in Hi1.
  assert (Hown : has_user (DB.committed (db s1)) (get row "user_id")).
  { exists user. rewrite Hus. split; [|reflexivity].
    apply elem_of_app. right. by apply list_elem_of_singleton. }
  destruct (verify_effect E req' s1 row Hnf Hu1 Hi1 Hown)
    as (s2 & Hrun2 & Hresp & _ & Hus2 & Htk2 & _).
  exists s1, s2. split; [done|]. split; [done|]. split; [done|]. split.
  - rewrite Hus2. apply list_elem_of_fmap. exists user. split.
    + assert (Hsame : strict_eq (get user "user_id") (get row "user_id") = true).
      { unfold user, row.
        rewrite (proj1 (get_new_user _ _ _ _ _ _)),
          (proj1 (proj2 (proj2 (get_new_token _ _ _ _)))). apply strict_eq_refl. }
      by rewrite Hsame.
    + rewrite Hus. apply elem_of_app. right. by apply list_elem_of_singleton.
  - rewrite Htk2, Htk, Hreq, List.filter_app, (filter_free_value _ _ Hft).
    simpl. unfold row. rewrite (proj1 (get_new_token _ _ _ _)), strict_eq_refl.
    simpl. apply app_nil_r.
Qed.

End SignupVerify.

(** ** Signing in and reading users *)

Section SessionFacts.

Context (E : Collaborators).
Context (matches : string → string → bool) (loginError : string).

(** X14: a sign-in with an unknown username and a sign-in with a wrong
    password are answered alike, 400 with the login-error message, after
    the same single lookup; neither changes the database. *)
Theorem signin_rejects_alike (req1 req2 : Request) (s1 s2 : State) (p1 p2 : string) :
  fault E (ticks s1) = None →
  fault E (ticks s2) = None →
  get (body req1) "username" ≠ VUndef →
  get (body req2) "username" ≠ VUndef →
  get (body req1) "password" = VStr p1 →
  get (body req2) "password" = VStr p2 →
  (∀ user, user ∈ DB.users (DB.committed (db s1)) →
           get user "username" ≠ get (body req1) "username") →
  (∃ user, user ∈ DB.users (DB.committed (db s2))
           ∧ get user "username" = get (body req2) "username") →
  (∀ user, user ∈ DB.users (DB.committed (db s2)) →
           get user "username" = get (body req2) "username" →
           ∃ h, get user "password" = VStr h ∧ matches p2 h = false) →
  ∃ s1' s2',
    Session.signin E matches loginError req1 s1 = Ok tt s1'
    ∧ Session.signin E matches loginError req2 s2 = Ok tt s2'
    ∧ responses (since s1 s1') = [ESend 400 (Message loginError)]
    ∧ responses (since s2 s2') = responses (since s1 s1')
    ∧ length (since s2 s2') = length (since s1 s1')
    ∧ db s1' = db s1 ∧ db s2' = db s2.
Proof.
  intros Hf1 Hf2 Hu1 Hu2 Hp1 Hp2 Hno Hsome Hbad.
  assert (R1 : ∃ s1', Session.signin E matches loginError req1 s1 = Ok tt s1'
                      ∧ since s1 s1'
                        = [ECall (UserFind (of_arrays ["username"]
                                              [get (body req1) "username"]));
                           ESend 400 (Message loginError)]
                      ∧ db s1' = db s1).
  { unfold Session.signin, User_findUsers. rewrite Hp1, (strict_eq_false _ _ Hu1).
    cbn [strict_eq orb]. monad. unfold call. rewrite Hf1. state.
    unfold DB.view. rewrite (find_no_field _ _ _ Hno).
    eexists. split; [reflexivity|]. split; [explicit_since; reflexivity|]. by state. }
  assert (R2 : ∃ s2', Session.signin E matches loginError req2 s2 = Ok tt s2'
                      ∧ since s2 s2'
                        = [ECall (UserFind (of_arrays ["username"]
                                              [get (body req2) "username"]));
                           ESend 400 (Message loginError)]
                      ∧ db s2' = db s2).
  { destruct (find_field _ _ _ Hsome) as (user & rest & Hfind & Hname).
    assert (Huser : user ∈ DB.find (of_arrays ["username"] [get (body req2) "username"])
                             (DB.users (DB.committed (db s2)))) by (rewrite Hfind; left).
    apply find_elem in Huser as [Huser _].
    destruct (Hbad user Huser Hname) as (h & Hh & Hm).
    unfold Session.signin, User_findUsers, Session.compareSync.
    rewrite Hp2, (strict_eq_false _ _ Hu2).
    cbn [strict_eq orb]. monad. unfold call. rewrite Hf2. state.
    unfold DB.view. rewrite Hfind, Hh, Hm. cbn [negb].
    eexists. split; [reflexivity|]. split; [explicit_since; reflexivity|]. by state. }
  destruct R1 as (s1' & Hr1 & Ho1 & Hd1), R2 as (s2' & Hr2 & Ho2 & Hd2).
  exists s1', s2'. rewrite Ho1, Ho2. done.
Qed.

(** X15: a sign-in with the username of a user and a password that the
    stored hash accepts is answered with a session credential for that
    user, set as a cookie and returned in the body; the database is not
    changed. *)
Theorem signin_accepts (req : Request) (s : State) (p : string) :
  fault E (ticks s) = None →
  get (body req) "username" ≠ VUndef →
  get (body req) "password" = VStr p →
  (∃ user, user ∈ DB.users (DB.committed (db s))
           ∧ get user "username" = get (body req) "username") →
  (∀ user, user ∈ DB.users (DB.committed (db s)) →
           get user "username" = get (body req) "username" →
           ∃ h, get user "password" = VStr h ∧ matches p h = true) →
  ∃ s' user,
    Session.signin E matches loginError req s = Ok tt s'
    ∧ user ∈ DB.users (DB.committed (db s))
    ∧ get user "username" = get (body req) "username"
    ∧ responses (since s s')
      = [ECookie (generateUserAuthToken E user req);
         ESend 200 (TokenBody (generateUserAuthToken E user req))]
    ∧ db s' = db s.
Proof.
  intros Hf Hu Hp Hsome Hgood.
  destruct (find_field _ _ _ Hsome) as (user & rest & Hfind & Hname).
  assert (Huser : user ∈ DB.find (of_arrays ["username"] [get (body req) "username"])
                           (DB.users (DB.committed (db s)))) by (rewrite Hfind; left).
  apply find_elem in Huser as [Huser _].
  destruct (Hgood user Huser Hname) as (h & Hh & Hm).
  unfold Session.signin, User_findUsers, Session.compareSync.
  rewrite Hp, (strict_eq_false _ _ Hu).
  cbn [strict_eq orb]. monad. unfold call. rewrite Hf. state.
  unfold DB.view. rewrite Hfind, Hh, Hm. cbn [negb].
  eexists. exists user. split; [reflexivity|]. split; [done|]. split; [done|].
  split; [explicit_since; reflexivity|]. by state.
Qed.

End SessionFacts.

Section DirectoryFacts.

Context (E : Collaborators).

(** X16: a user can read their own record only.  When the id of the path
    is not the caller's id, [getUser] answers 400 with the generic
    message without any call, whatever the fault plan.  For the caller's
    own id it answers 404 when no row has that id, and otherwise 200 with
    the address, the username and the name of a row of that id and
    nothing else of the row; the database is not changed. *)
Theorem getUser_answers (req : Request) (s : State) :
  (params_id req ≠ userId req →
   Directory.getUser E req s = Ok (Directory.mkReply 400 Directory.JGeneric) s)
  ∧ (params_id req = userId req →
     fault E (ticks s) = None →
     ∃ reply s',
       Directory.getUser E req s = Ok reply s'
       ∧ db s' = db s
       ∧ ((∀ user, user ∈ DB.users (DB.committed (db s)) →
                   get user "user_id" ≠ VStr (params_id req)) →
          reply = Directory.mkReply 404 Directory.JNotFound)
       ∧ (has_user (DB.committed (db s)) (VStr (params_id req)) →
          ∃ user, user ∈ DB.users (DB.committed (db s))
                  ∧ get user "user_id" = VStr (params_id req)
                  ∧ reply = Directory.mkReply 200
                              (Directory.JProfile (get user "email")
                                 (get user "username") (get user "name")))).
Proof.
  split.
  { intros Hne. unfold Directory.getUser.
    destruct (String.eqb_spec (params_id req) (userId req)) as [Heq|_]; [done|].
    reflexivity. }
  intros Hown Hf. unfold Directory.getUser, User_findUsers.
  rewrite Hown, String.eqb_refl. cbn [negb]. monad. unfold call. rewrite Hf. state.
  unfold DB.view.
  change ({[ "user_id" := VStr (userId req) ]} : Obj)
    with (of_arrays ["user_id"] [VStr (userId req)]).
  destruct (DB.find _ _) as [|user rest] eqn:Hfind.
  - eexists. eexists. split; [reflexivity|]. split; [by state|]. split; [done|].
    intros Hhas. destruct (find_user _ _ Hhas) as (u & r & Hfu & _). congruence.
  - eexists. eexists. split; [reflexivity|]. split; [by state|].
    assert (Huser : user ∈ DB.find (of_arrays ["user_id"] [VStr (userId req)])
                             (DB.users (DB.committed (db s)))) by (rewrite Hfind; left).
    apply find_elem in Huser as [Huser Hm]. apply matches_one in Hm.
    split.
    + intros Hno. by destruct (Hno user Huser).
    + intros _. by exists user.
Qed.

(** X17: the two reading handlers never fail and never write: whatever
    the fault plan, [getUser] and [getUsers] return an answer and leave
    the database as it was.  When the store call fails the answer is 500
    with the generic message, after the error is logged; a [getUsers]
    whose call succeeds answers 200 with all the rows of the User
    store. *)
Theorem directory_read_only (req : Request) (s : State) :
  (∃ reply s',
     Directory.getUser E req s = Ok reply s'
     ∧ db s' = db s
     ∧ (params_id req = userId req →
        ∀ code, fault E (ticks s) = Some code →
                reply = Directory.mkReply 500 Directory.JGeneric
                ∧ since s s' = [ECall (UserFind {[ "user_id" := VStr (params_id req) ]});
                                ELog (Failure code)]))
  ∧ (∃ reply s',
       Directory.getUsers E req s = Ok reply s'
       ∧ db s' = db s
       ∧ (fault E (ticks s) = None →
          reply = Directory.mkReply 200
                    (Directory.JUsers (DB.users (DB.committed (db s))))
          ∧ since s s' = [ECall (UserFind ∅)])
       ∧ (∀ code, fault E (ticks s) = Some code →
                  reply = Directory.mkReply 500 Directory.JGeneric
                  ∧ since s s' = [ECall (UserFind ∅); ELog (Failure code)])).
Proof.
  split.
  - unfold Directory.getUser, User_findUsers.
    destruct (String.eqb_spec (params_id req) (userId req)) as [Heq|Hne]; cbn [negb].
    + monad. unfold call. state. destruct (fault E (ticks s)) as [code|]; state.
      * eexists. eexists. split; [reflexivity|]. split; [by state|].
        intros _ code' [= <-]. split; [done|]. explicit_since. done.
      * destruct (DB.find _ _);
          (eexists; eexists; split; [reflexivity|]; split; [by state|]; done).
    + eexists. eexists. split; [reflexivity|]. done.
  - unfold Directory.getUsers, Directory.User_getAllUsers.
    monad. unfold call. state. destruct (fault E (ticks s)) as [code|]; state.
    + eexists. eexists. split; [reflexivity|]. split; [by state|]. split; [done|].
      intros code' [= <-]. split; [done|]. explicit_since. done.
    + eexists. eexists. split; [reflexivity|]. split; [by state|]. split; [|done].
      intros _. split; [done|]. explicit_since. done.
Qed.

End DirectoryFacts.

(** ** Updating a user *)

Section UpdateMore.

Context (E : Collaborators).

Ltac update_leaf :=
  do 2 eexists; split; [reflexivity|];
  split; [state; rewrite <- ?app_assoc; reflexivity|];
  split; [reflexivity|];
  split; [simpl; unfold prefix; eexists; simpl; reflexivity|];
  simpl; first [by intros ?|intros _; state; reflexivity].

(** Every run of [updateUser]: one answer, the guarded calls and nothing
    else, and no change without a call. *)
Lemma updateUser_shape (req : Request) (s : State) :
  ∃ s' l,
    UserController.updateUser E req s = Ok tt s'
    ∧ out s' = out s ++ l
    ∧ length (answers l) = 1%nat
    ∧ persisted l `prefix_of`
        match get (body req) "password" with
        | VUndef | VStr _ =>
            gated_calls req (sent_profile E req) (UserController.collect req).2
        | _ => []
        end
    ∧ (persisted l = [] → db s' = db s).
Proof.
  unfold UserController.updateUser, sent_profile.
  match goal with |- context [mbind ?k _] => set (rest := k) end.
  assert (Hrest : ∀ na s0, ∃ s' l,
             try_catch (rest na) (λ err, log err;; send 500 GenericError) s0 = Ok tt s'
             ∧ out s' = out s0 ++ l
             ∧ length (answers l) = 1%nat
             ∧ persisted l `prefix_of` gated_calls req na (UserController.collect req).2
             ∧ (persisted l = [] → db s' = db s0)).
  { intros na s0. unfold rest, User_setAttributes, gated_calls.
    rewrite eqb_decide, !size_nonzero, !both_guards.
    monad. unfold call.
    repeat case_bool_decide; destruct (truthy (get na "username")); state;
      repeat faulty E; update_leaf. }
  clearbody rest. unfold bcrypt.
  rewrite (collect_get req "password") by set_solver.
  destruct (get (body req) "password") eqn:Hpw;
    cbn [strict_eq negb]; try apply Hrest.
  - monad. do 2 eexists. split; [reflexivity|].
    split; [state; rewrite <- ?app_assoc; reflexivity|].
    split; [reflexivity|]. split; [by exists []|]. intros _. by state.
  - monad. do 2 eexists. split; [reflexivity|].
    split; [state; rewrite <- ?app_assoc; reflexivity|].
    split; [reflexivity|]. split; [by exists []|]. intros _. by state.
Qed.

(** X18: [updateUser] never hands a plaintext password to the store: in
    every attribute bag it sends, whatever fails, a password is the hash
    of the password of the body (or [undefined] when the body says so). *)
Theorem updateUser_password_hashed (req : Request) (s : State) :
  ∃ s', UserController.updateUser E req s = Ok tt s'
        ∧ ∀ id attributes v,
            (id, attributes) ∈ persisted (since s s') →
            attributes !! "password" = Some v →
            v = VUndef
            ∨ ∃ p, get (body req) "password" = VStr p ∧ v = VStr (bcrypt_hash E p).
Proof.
  destruct (updateUser_shape req s) as (s' & l & Hrun & Hout & _ & Hpre & _).
  exists s'. split; [done|]. rewrite (since_app _ _ _ Hout).
  intros id attributes v Hin Hv.
  assert (Hbag : (id, attributes)
                 ∈ match get (body req) "password" with
                   | VUndef | VStr _ =>
                       gated_calls req (sent_profile E req) (UserController.collect req).2
                   | _ => []
                   end).
  { destruct Hpre as [k ->]. apply elem_of_app. by left. }
  assert (Hadmin : (UserController.collect req).2 !! "password" = None).
  { rewrite collect_admin. by rewrite bool_decide_eq_false_2. }
  assert (Hcases : attributes = sent_profile E req
                   ∧ (get (body req) "password" = VUndef
                      ∨ ∃ p, get (body req) "password" = VStr p)).
  { destruct (get (body req) "password") eqn:Hpw;
      try (by apply elem_of_nil in Hbag);
      (unfold gated_calls in Hbag; apply elem_of_app in Hbag as [Hbag|Hbag];
       case_bool_decide; try (by apply elem_of_nil in Hbag);
       apply list_elem_of_singleton in Hbag; injection Hbag as -> ->;
       [split; eauto|congruence]). }
  destruct Hcases as [-> Hpw]. unfold sent_profile in Hv.
  rewrite (collect_get req "password") in Hv by set_solver.
  destruct Hpw as [Hpw|[p Hpw]]; rewrite Hpw in Hv.
  - left. assert (Hg : get (UserController.collect req).1 "password" = VUndef)
      by (by rewrite (collect_get req "password") by set_solver).
    unfold get in Hg. rewrite Hv in Hg. done.
  - right. exists p. split; [done|]. rewrite lookup_insert_eq in Hv. congruence.
Qed.

(** X19: a caller who is neither the target nor an administrator changes
    nothing: whatever the body and whatever fails, [updateUser] makes no
    call to [User.setAttributes] and leaves the database as it was. *)
Theorem updateUser_unauthorized (req : Request) (s : State) :
  userId req ≠ params_id req →
  role req ≠ Admin →
  ∃ s', UserController.updateUser E req s = Ok tt s'
        ∧ persisted (since s s') = []
        ∧ db s' = db s.
Proof.
  intros Hid Hrole.
  destruct (updateUser_shape req s) as (s' & l & Hrun & Hout & _ & Hpre & Hdb).
  exists s'. split; [done|]. rewrite (since_app _ _ _ Hout).
  assert (Hnone : persisted l = []).
  { assert (Hg : ∀ a b, gated_calls req a b = []).
    { intros a b. unfold gated_calls.
      rewrite !bool_decide_eq_false_2 by (by intros [? _]). done. }
    rewrite Hg in Hpre. destruct (get (body req) "password");
      by apply prefix_nil_inv in Hpre. }
  split; [done|]. by apply Hdb.
Qed.

End UpdateMore.

(** ** One answer per request *)

Lemma answers_responses (l : list Event) : answers (responses l) = answers l.
Proof.
  induction l as [|e l IH]; [done|]. unfold answers, responses in *. simpl.
  destruct e; simpl; by rewrite ?IH.
Qed.

Section Answers.

Context (E : Collaborators).
Context (matches : string → string → bool) (loginError : string).

Ltac single := explicit_since; reflexivity.

Ltac cases :=
  repeat first
    [ faulty E
    | match goal with
      | |- context [match DB.find ?f ?r with _ => _ end] =>
          destruct (DB.find f r) as [|? ?]; state
      end ].

Lemma verify_answers_once (req : Request) (s : State) :
  answers_once (AuthController.verify E req) s.
Proof.
  unfold answers_once, AuthController.verify, Token_findTokens, User_findUsers,
    User_setAttributes, Token_deleteToken.
  monad. unfold call. state. cases; single.
Qed.

Lemma verifyRecovery_answers_once (req : Request) (s : State) :
  answers_once (AuthController.verifyRecovery E req) s.
Proof.
  unfold answers_once, AuthController.verifyRecovery, Token_findTokens,
    isPasswordTokenExpired.
  monad. unfold call. state. cases; try single.
  match goal with |- context [if ?b then _ else _] => destruct b end; single.
Qed.

Lemma processRecovery_answers_once (req : Request) (s : State) :
  answers_once (AuthController.processRecovery E req) s.
Proof.
  unfold answers_once, AuthController.processRecovery, Token_findTokens,
    isPasswordTokenExpired, User_findUsers, User_setAttributes, Token_deleteToken, bcrypt.
  destruct (get (body req) "password"); cbn [strict_eq]; monad; unfold call; state;
    try single;
    (faulty E; [single|]);
    (destruct (DB.find _ _) as [|token ?]; state; [single|]);
    (match goal with |- context [if ?b then _ else _] => destruct b end; state; [single|]);
    cases; single.
Qed.

Lemma recovery_answers_once (fuel : nat) (req : Request) (s : State) :
  answers_once (AuthController.recovery E fuel req) s.
Proof.
  unfold answers_once.
  destruct (decide (get (body req) "email" = VUndef)) as [He|He].
  - unfold AuthController.recovery. rewrite He. cbn [strict_eq]. monad. single.
  - pose proof (recovery_answers E fuel req s He) as H.
    destruct (AuthController.recovery E fuel req s) as [[] s'| |]; [|done|done].
    rewrite <- answers_responses. by destruct H as [-> | ->].
Qed.

Lemma signin_answers_once (req : Request) (s : State) :
  answers_once (Session.signin E matches loginError req) s.
Proof.
  unfold answers_once, Session.signin, User_findUsers, Session.compareSync.
  destruct (_ || _); monad; [single|]. unfold call. state.
  faulty E; [single|].
  destruct (DB.find _ _) as [|user ?]; state; [single|].
  destruct (get (body req) "password"), (get user "password"); state; try single.
  destruct (matches _ _); cbn [negb]; state; single.
Qed.

(** X20: the handlers of the account flows catch every failure: whatever
    the fault plan and the stores, verify, the two recovery steps, the
    recovery request and sign-in never fail, and a run that ends has
    answered the request exactly once. *)
Theorem auth_handlers_answer_once (fuel : nat) (req : Request) (s : State) :
  answers_once (AuthController.verify E req) s
  ∧ answers_once (AuthController.verifyRecovery E req) s
  ∧ answers_once (AuthController.processRecovery E req) s
  ∧ answers_once (AuthController.recovery E fuel req) s
  ∧ answers_once (Session.signin E matches loginError req) s.
Proof.
  split; [apply verify_answers_once|]. split; [apply verifyRecovery_answers_once|].
  split; [apply processRecovery_answers_once|]. split; [apply recovery_answers_once|].
  apply signin_answers_once.
Qed.

(** X21: the handlers that change users catch every failure: whatever
    the fault plan and the stores, [updateUser] and [deleteUser] never
    fail and answer the request exactly once; a [deleteUser] whose store
    call fails answers 500 with the generic message and deletes nothing. *)
Theorem user_handlers_answer_once (req : Request) (s : State) :
  answers_once (UserController.updateUser E req) s
  ∧ answers_once (UserController.deleteUser E req) s
  ∧ (∀ code, fault E (ticks s) = Some code →
       ∃ s', UserController.deleteUser E req s = Ok tt s'
             ∧ responses (since s s') = [ESend 500 GenericError]
             ∧ db s' = db s).
Proof.
  split; [|split].
  - unfold answers_once.
    destruct (updateUser_shape E req s) as (s' & l & Hrun & Hout & Hone & _).
    rewrite Hrun. by rewrite (since_app _ _ _ Hout).
  - unfold answers_once, UserController.deleteUser, User_deleteUser.
    monad. unfold call. state. faulty E; single.
  - intros code Hf. unfold UserController.deleteUser, User_deleteUser.
    monad. unfold call. state. rewrite Hf. state.
    eexists. split; [reflexivity|]. split; [explicit_since; reflexivity|]. by state.
Qed.

(** X22: a request that lacks its field is turned away before anything is
    called: a recovery request without an address, a process step without
    a password and a sign-in without a username or a password are
    answered 400 with a message that names the missing field, and the
    world is otherwise untouched whatever the fault plan. *)
Theorem missing_field_rejected (fuel : nat) (req : Request) (s : State) :
  (get (body req) "email" = VUndef →
   AuthController.recovery E fuel req s
   = Ok tt (emit (ESend 400 (Message "Body must include email")) s))
  ∧ (get (body req) "password" = VUndef →
     AuthController.processRecovery E req s
     = Ok tt (emit (ESend 400 (Message "Body must include password")) s))
  ∧ (get (body req) "username" = VUndef ∨ get (body req) "password" = VUndef →
     Session.signin E matches loginError req s
     = Ok tt (emit (ESend 400 (Message "Body must include a username and password")) s)).
Proof.
  split; [|split].
  - intros H. unfold AuthController.recovery. rewrite H. reflexivity.
  - intros H. unfold AuthController.processRecovery. rewrite H. reflexivity.
  - intros H. unfold Session.signin.
    assert (Hc : strict_eq (get (body req) "username") VUndef
                 || strict_eq (get (body req) "password") VUndef = true).
    { destruct H as [H|H]; rewrite H; cbn [strict_eq]; by rewrite ?orb_true_r. }
    rewrite Hc. reflexivity.
Qed.

End Answers.

(** ** More on the flows *)

Section FlowFacts.

Context (E : Collaborators).

(** X23: a signup with a username or an address that is taken is answered
    500 with the generic message, as any other failure is: the insert
    fails inside the transaction, which is rolled back, and the database
    is as before. *)
Theorem signup_duplicate (fuel : nat) (req : Request) (s : State) (p : string) :
  no_faults E →
  DB.tx (db s) = None →
  get (body req) "username" ≠ VUndef →
  get (body req) "email" ≠ VUndef →
  get (body req) "name" ≠ VUndef →
  get (body req) "password" = VStr p →
  DB.has "username" (get (body req) "username") (DB.users (DB.committed (db s))) = true
  ∨ DB.has "email" (get (body req) "email") (DB.users (DB.committed (db s))) = true →
  ∃ s', AuthController.signup E fuel req s = Ok tt s'
        ∧ responses (since s s') = [ESend 500 GenericError]
        ∧ ELog (Failure DB.unique_violation) ∈ since s s'
        ∧ mails (since s s') = []
        ∧ db s' = db s.
Proof.
  intros Hnf Htx Hu He Hn Hp Htaken.
  assert (Hc : DB.has "username" (get (body req) "username")
                 (DB.users (DB.committed (db s)))
               || DB.has "email" (get (body req) "email")
                    (DB.users (DB.committed (db s))) = true).
  { destruct Htaken as [H|H]; rewrite H; by rewrite ?orb_true_r. }
  unfold AuthController.signup, AuthController.sendVerificationEmail.
  rewrite client_query_begin, client_query_commit, client_query_rollback.
  unfold pool_connect, client_release, User_create, smtp_sendEmail, bcrypt.
  rewrite Hp, (strict_eq_false _ _ Hu), (strict_eq_false _ _ He), (strict_eq_false _ _ Hn).
  cbn [strict_eq orb]. monad. calm Hnf.
  unfold DB.view, DB.begin. calm Hnf. cbn [default from_option id DB.tx DB.committed].
  rewrite Hc. calm Hnf. cbn [DB.rollback DB.committed DB.tx].
  eexists. split; [reflexivity|].
  split; [explicit_since; reflexivity|].
  split; [explicit_since; rewrite !elem_of_app, !list_elem_of_singleton; tauto|].
  split; [explicit_since; reflexivity|].
  state. destruct (db s) as [c t]. simpl in *. by subst t.
Qed.

(** X24: an expired password token is refused and kept: from the age TTL
    on, both recovery steps answer 400 with the generic message and leave
    the database as it was; the token is not removed. *)
Theorem expired_token_kept (req : Request) (s : State) (token : Obj) (t : Z) :
  no_faults E →
  unique_tokens (DB.committed (db s)) →
  issued (DB.committed (db s)) token (params_token req) Password →
  get token "created_at" = VNum t →
  TTL E ≤ clock s - t →
  get (body req) "password" ≠ VUndef →
  (∃ s', AuthController.verifyRecovery E req s = Ok tt s'
         ∧ responses (since s s') = [ESend 400 GenericError]
         ∧ db s' = db s)
  ∧ (∃ s', AuthController.processRecovery E req s = Ok tt s'
           ∧ responses (since s s') = [ESend 400 GenericError]
           ∧ db s' = db s).
Proof.
  intros Hnf Hu Hi Hc Hage Hp.
  assert (Hold : (clock s - t <? TTL E) = false) by (by apply Z.ltb_ge).
  split.
  - unfold AuthController.verifyRecovery, Token_findTokens, isPasswordTokenExpired.
    monad. filters. calm Hnf. unfold DB.view.
    rewrite (find_issued _ _ _ _ Hu Hi). rewrite Hc. calm Hnf. rewrite Hold. cbn [negb].
    eexists. split; [reflexivity|]. split; [explicit_since; reflexivity|]. by state.
  - unfold AuthController.processRecovery, Token_findTokens, isPasswordTokenExpired.
    rewrite (strict_eq_false _ _ Hp). monad. filters. calm Hnf. unfold DB.view.
    rewrite (find_issued _ _ _ _ Hu Hi). rewrite Hc. calm Hnf. rewrite Hold. cbn [negb].
    eexists. split; [reflexivity|]. split; [explicit_since; reflexivity|]. by state.
Qed.

(** X25: verification tokens do not expire: however much later a
    verification token is redeemed, the owner is marked verified, the
    token is removed and the answer is the redirect to the login page. *)
Theorem verify_never_expires (req : Request) (s : State) (token : Obj) (d : Z) :
  no_faults E →
  unique_tokens (DB.committed (db s)) →
  issued (DB.committed (db s)) token (params_token req) Verification →
  has_user (DB.committed (db s)) (get token "user_id") →
  ∃ s', AuthController.verify E req (elapse d s) = Ok tt s'
        ∧ responses (since (elapse d s) s') = [ERedirect "/login"]
        ∧ (∀ user, user ∈ DB.users (DB.committed (db s')) →
                   get user "user_id" = get token "user_id" →
                   get user "verified" = VBool true)
        ∧ (∀ row, row ∈ DB.tokens (DB.committed (db s')) →
                  get row "token" ≠ VStr (params_token req)).
Proof.
  intros Hnf Hu Hi Hown.
  destruct (verify_effect E req (elapse d s) token Hnf Hu Hi Hown)
    as (s' & Hrun & Hresp & _ & Hus & Htk & _).
  exists s'. split; [done|]. split; [done|]. split.
  - intros user Hin Hid. rewrite Hus in Hin.
    apply list_elem_of_fmap in Hin as (row & -> & Hrow).
    destruct (strict_eq (get row "user_id") (get token "user_id")) eqn:Heq.
    + unfold get. by rewrite lookup_insert_eq.
    + apply strict_eq_spec in Hid. congruence.
  - intros row Hin. rewrite Htk in Hin.
    apply list_elem_of_In, filter_In in Hin as [_ Hne].
    apply negb_true_iff in Hne. intros Heq. by rewrite Heq, strict_eq_refl in Hne.
Qed.

(** The run of [updateUser] without failure, with the database it leaves. *)
Lemma updateUser_database (req : Request) (s : State) :
  no_faults E → password_usable req →
  ∃ s', UserController.updateUser E req s = Ok tt s'
        ∧ DB.committed (db s')
          = apply_calls (gated_calls req (sent_profile E req) (UserController.collect req).2)
              (DB.committed (db s))
        ∧ DB.tx (db s') = DB.tx (db s).
Proof.
  intros Hnf Hpw.
  unfold UserController.updateUser, sent_profile.
  match goal with |- context [mbind ?k _] => set (rest := k) end.
  assert (Hrest : ∀ na s0, ∃ s',
             try_catch (rest na) (λ err, log err;; send 500 GenericError) s0 = Ok tt s'
             ∧ DB.committed (db s')
               = apply_calls (gated_calls req na (UserController.collect req).2)
                   (DB.committed (db s0))
             ∧ DB.tx (db s') = DB.tx (db s0)).
  { intros na s0. unfold rest, User_setAttributes, gated_calls.
    rewrite eqb_decide, !size_nonzero, !both_guards.
    monad. unfold call.
    repeat case_bool_decide; destruct (truthy (get na "username")); state;
      rewrite ?Hnf; state;
      (eexists; split; [reflexivity|]; state; split; reflexivity). }
  clearbody rest. unfold bcrypt.
  rewrite (collect_get req "password") by set_solver.
  destruct Hpw as [Hpw|[p Hpw]]; rewrite Hpw; cbn [strict_eq negb]; apply Hrest.
Qed.

Lemma apply_guarded (req : Request) (P : Prop) `{Decision P} (bag : Obj) (st : DB.Stores) :
  apply_calls (if bool_decide (P ∧ bag ≠ ∅) then [(VStr (params_id req), bag)] else []) st
  = DB.mkStores
      (map (λ row, if strict_eq (get row "user_id") (VStr (params_id req))
                   then (if bool_decide P then bag else ∅) ∪ row else row)
         (DB.users st))
      (DB.tokens st).
Proof.
  unfold apply_calls. case_bool_decide as Hg.
  - destruct Hg as [HP _]. by rewrite (bool_decide_eq_true_2 _ HP).
  - simpl. rewrite (stores_eta st) at 1. f_equal.
    rewrite <- (map_id (DB.users st)) at 1. apply map_ext. intros row.
    destruct (strict_eq _ _); [|done]. case_bool_decide as HP.
    + destruct (decide (bag = ∅)) as [->|Hne]; [|tauto].
      by rewrite (left_id_L ∅ (∪)).
    + by rewrite (left_id_L ∅ (∪)).
Qed.

Lemma apply_calls_tokens (l : list (JsVal * Obj)) (st : DB.Stores) :
  DB.tokens (apply_calls l st) = DB.tokens st.
Proof.
  revert st. induction l as [|c l IH]; intros st; [done|].
  unfold apply_calls in *. simpl. by rewrite IH.
Qed.

(** X26: an update without failure leaves the database that the guarded
    calls give, applied in order to the rows of the id of the path: the
    profile attributes of the body (the password as its hash) when the
    caller is the target, then the role when the caller is an
    administrator.  Everything else, and the Token store, is as before. *)
Theorem updateUser_effect (req : Request) (s : State) :
  no_faults E → password_usable req →
  ∃ s', UserController.updateUser E req s = Ok tt s'
        ∧ DB.users (DB.committed (db s'))
          = map (λ row,
                   if strict_eq (get row "user_id") (VStr (params_id req))
                   then (if bool_decide (role req = Admin)
                         then (UserController.collect req).2 else ∅)
                        ∪ ((if bool_decide (userId req = params_id req)
                            then sent_profile E req else ∅) ∪ row)
                   else row)
              (DB.users (DB.committed (db s)))
        ∧ DB.tokens (DB.committed (db s')) = DB.tokens (DB.committed (db s))
        ∧ DB.tx (db s') = DB.tx (db s).
Proof.
  intros Hnf Hpw.
  destruct (updateUser_database req s Hnf Hpw) as (s' & Hrun & Hdb & Htx).
  exists s'. split; [done|]. rewrite Hdb.
  split; [|split; [apply apply_calls_tokens|done]].
  unfold gated_calls. unfold apply_calls at 1. rewrite foldl_app.
  fold (apply_calls (if bool_decide (userId req = params_id req ∧ sent_profile E req ≠ ∅)
                     then [(VStr (params_id req), sent_profile E req)] else [])
          (DB.committed (db s))).
  rewrite apply_guarded.
  match goal with
  | |- context [foldl ?f ?st ?l] => change (foldl f st l) with (apply_calls l st)
  end.
  rewrite apply_guarded. simpl.
  rewrite map_map. apply map_ext. intros row.
  destruct (strict_eq (get row "user_id") (VStr (params_id req))) eqn:Hrow.
  - rewrite get_union_r, Hrow; [done|].
    case_bool_decide; [|apply lookup_empty].
    destruct (sent_profile E req !! "user_id") eqn:Hk; [|done].
    assert (Hs : is_Some (sent_profile E req !! "user_id")) by eauto.
    apply sent_profile_keys in Hs as [Hs _]. set_solver.
  - by rewrite Hrow.
Qed.

End FlowFacts.

Section Compositions.

Context (E : Collaborators).

(** X27: the refreshed credential does not wait for the guards.  A caller
    who is neither the target nor an administrator and sends a truthy
    username is answered with a credential built from the attributes of
    the body, set as a cookie and returned, although nothing was
    persisted and the database is as before. *)
Theorem updateUser_refreshes_without_update (req : Request) (s : State) :
  no_faults E → password_usable req →
  userId req ≠ params_id req →
  role req ≠ Admin →
  truthy (get (body req) "username") = true →
  ∃ s', UserController.updateUser E req s = Ok tt s'
        ∧ db s' = db s
        ∧ responses (since s s')
          = [ECookie (generateUpdatedUserAuthToken E req (sent_profile E req));
             ESend 200 (NewTokenBody
                          (generateUpdatedUserAuthToken E req (sent_profile E req)))]
        ∧ get (sent_profile E req) "username" = get (body req) "username".
Proof.
  intros Hnf Hpw Hid Hrole Hname.
  destruct (updateUser_run E req s Hnf Hpw) as (s' & Hrun & Hp & Hresp).
  destruct (updateUser_shape E req s) as (s'' & l & Hrun' & Hout & _ & _ & Hdb).
  rewrite Hrun in Hrun'. injection Hrun' as <-.
  exists s'. split; [done|]. split.
  - apply Hdb. rewrite <- (since_app _ _ _ Hout), Hp. unfold gated_calls.
    by rewrite !bool_decide_eq_false_2 by (by intros [? _]).
  - rewrite Hresp, Hname. split; [done|]. apply sent_profile_username.
Qed.

(** X28: delete, then read.  After [deleteUser] for an id, [getUser] by
    the user of that id is answered 404: no row of the id is left. *)
Theorem deleteUser_then_getUser (req req' : Request) (s : State) :
  no_faults E →
  params_id req' = params_id req →
  userId req' = params_id req' →
  ∃ s1 s2,
    UserController.deleteUser E req s = Ok tt s1
    ∧ Directory.getUser E req' s1
      = Ok (Directory.mkReply 404 Directory.JNotFound) s2
    ∧ db s2 = db s1.
Proof.
  intros Hnf Hsame Hown.
  unfold UserController.deleteUser, User_deleteUser, Directory.getUser, User_findUsers.
  rewrite Hown, String.eqb_refl. cbn [negb]. monad. calm Hnf.
  eexists. eexists. split; [reflexivity|]. calm Hnf.
  unfold DB.view, DB.update. cbn [DB.committed DB.delete_user DB.users]. rewrite Hsame.
  change ({[ "user_id" := VStr (params_id req) ]} : Obj)
    with (of_arrays ["user_id"] [VStr (params_id req)]).
  rewrite find_no_field; [split; [reflexivity|by state]|].
  intros row Hin Heq. apply list_elem_of_In, filter_In in Hin as [_ Hne].
  apply negb_true_iff in Hne. by rewrite Heq, strict_eq_refl in Hne.
Qed.

End Compositions.

(** ** Instances of the further properties *)

Lemma al_only (P : Obj → Prop) (tokens : list Obj) (now : Z) :
  P Sample.al →
  ∀ user, user ∈ DB.users (DB.committed (db (Sample.world [Sample.al] tokens now))) →
          P user.
Proof. intros HP user Hin. apply list_elem_of_singleton in Hin. by subst user. Qed.

Lemma signup_incomplete_body_witness :
  ∃ s', AuthController.signup Sample.quiet 3 Cases.signup_no_name Sample.empty = Ok tt s'
        ∧ db s' = db Sample.empty.
Proof.
  destruct (signup_incomplete_body Sample.quiet 3 Cases.signup_no_name Sample.empty)
    as (s' & Hrun & _ & Hdb).
  - right. right. right. vm_compute. reflexivity.
  - reflexivity.
  - reflexivity.
  - exists s'. split; [exact Hrun|exact Hdb].
Defined.

Lemma signup_without_client_witness :
  ∃ s', AuthController.signup Cases.pool_down 3 Sample.signup_al Sample.empty
        = Throw (Failure (VStr "ECONNREFUSED")) s'
        ∧ since Sample.empty s' = [ECall PoolConnect].
Proof.
  destruct (signup_without_client Cases.pool_down 3 Sample.signup_al Sample.empty
              (VStr "ECONNREFUSED")) as (s' & Hrun & Hout & _).
  - reflexivity.
  - exists s'. split; [exact Hrun|exact Hout].
Defined.

Lemma signup_success_witness :
  ∃ s', AuthController.signup Sample.quiet 3 Sample.signup_al Sample.empty = Ok tt s'
        ∧ responses (since Sample.empty s') = [ESend 204 NoBody]
        ∧ DB.tx (db s') = None.
Proof.
  destruct (signup_success Sample.quiet 2 Sample.signup_al Sample.empty "p")
    as (s' & Hrun & Hresp & Htx & _).
  - exact quiet_no_faults.
  - reflexivity.
  - intros H. vm_compute in H. discriminate.
  - intros H. vm_compute in H. discriminate.
  - intros H. vm_compute in H. discriminate.
  - vm_compute. reflexivity.
  - reflexivity.
  - reflexivity.
  - reflexivity.
  - exists s'. split; [exact Hrun|split; [exact Hresp|exact Htx]].
Defined.

Lemma signup_answers_once_witness :
  ∃ s', AuthController.signup Sample.mail_down 3 Sample.signup_al Sample.empty = Ok tt s'
        ∧ length (answers (since Sample.empty s')) = 1%nat.
Proof.
  eexists. split; [vm_compute; reflexivity|].
  destruct (signup_answers_once Sample.mail_down 3 Sample.signup_al Sample.empty)
    as [Hok _]; [reflexivity|].
  destruct (Hok _ ltac:(vm_compute; reflexivity)) as [Hone _]. exact Hone.
Defined.

Lemma verify_ignores_other_tokens_witness :
  ∃ s', AuthController.verify Sample.quiet Cases.verify_r0 Sample.with_reset = Ok tt s'
        ∧ db s' = db Sample.with_reset.
Proof.
  destruct (verify_ignores_other_tokens Sample.quiet Cases.verify_r0 Sample.with_reset)
    as (s' & Hrun & _ & Hdb).
  - reflexivity.
  - intros row Hin _ H. apply list_elem_of_singleton in Hin. subst row.
    vm_compute in H. discriminate.
  - exists s'. split; [exact Hrun|exact Hdb].
Defined.

Lemma recovery_rejects_other_tokens_witness :
  ∃ s', AuthController.processRecovery Sample.quiet Cases.reset_t0 Sample.with_taken
        = Ok tt s'
        ∧ db s' = db Sample.with_taken.
Proof.
  destruct (recovery_rejects_other_tokens Sample.quiet Cases.reset_t0 Sample.with_taken)
    as [_ (s' & Hrun & _ & Hdb)].
  - reflexivity.
  - intros H. vm_compute in H. discriminate.
  - intros row Hin _ H. apply list_elem_of_singleton in Hin. subst row.
    vm_compute in H. discriminate.
  - exists s'. split; [exact Hrun|exact Hdb].
Defined.

Lemma verify_orphan_token_witness :
  ∃ s', AuthController.verify Sample.quiet Sample.verify_t0 Cases.orphaned = Ok tt s'
        ∧ responses (since Cases.orphaned s') = [ESend 500 GenericError].
Proof.
  destruct (verify_orphan_token Sample.quiet Sample.verify_t0 Cases.orphaned Sample.taken)
    as (s' & Hrun & Hout & _).
  - exact quiet_no_faults.
  - exact with_taken_unique.
  - split; [apply list_elem_of_here|split; vm_compute; reflexivity].
  - intros user Hin. by apply not_elem_of_nil in Hin.
  - exists s'. split; [exact Hrun|]. rewrite Hout. reflexivity.
Defined.

Lemma verify_changes_only_witness :
  ∃ s', AuthController.verify Sample.quiet Sample.verify_t0 Sample.with_taken = Ok tt s'
        ∧ DB.users (DB.committed (db s')) = [<["verified" := VBool true]> Sample.al]
        ∧ DB.tokens (DB.committed (db s')) = [].
Proof.
  destruct (verify_changes_only Sample.quiet Sample.verify_t0 Sample.with_taken Sample.taken)
    as (s' & Hrun & Hu & Ht & _).
  - exact quiet_no_faults.
  - exact with_taken_unique.
  - split; [apply list_elem_of_here|split; vm_compute; reflexivity].
  - exact (al_owns [Sample.taken]).
  - exists s'. split; [exact Hrun|]. rewrite Hu, Ht. split; reflexivity.
Defined.

Lemma processRecovery_once_witness :
  ∃ s1 s2,
    AuthController.processRecovery Sample.quiet Sample.reset_r0 Sample.with_reset = Ok tt s1
    ∧ AuthController.processRecovery Sample.quiet Sample.reset_r0 s1 = Ok tt s2
    ∧ db s2 = db s1.
Proof.
  destruct (processRecovery_once Sample.quiet Sample.reset_r0 Sample.with_reset
              Sample.reset 0 "new") as (s1 & s2 & a & Hrun & _ & _ & _ & Hagain & _ & Hdb).
  - exact quiet_no_faults.
  - exact with_reset_unique.
  - exact with_reset_issued.
  - reflexivity.
  - reflexivity.
  - reflexivity.
  - exact (al_owns [Sample.reset]).
  - exists s1, s2. split; [exact Hrun|split; [exact Hagain|exact Hdb]].
Defined.

Lemma recovery_issues_one_token_witness :
  ∃ s', AuthController.recovery Sample.quiet 1 Sample.recover_al Sample.with_al = Ok tt s'
        ∧ DB.tokens (DB.committed (db s'))
          = [DB.new_token (VStr "7") "t0" Password 1000].
Proof.
  destruct (recovery_issues_one_token Sample.quiet 0 Sample.recover_al Sample.with_al)
    as (s' & user & Hrun & Hin & _ & _ & Ht & _).
  - exact quiet_no_faults.
  - intros H. vm_compute in H. discriminate.
  - exists Sample.al. split; [apply list_elem_of_here|vm_compute; reflexivity].
  - reflexivity.
  - exists s'. split; [exact Hrun|]. rewrite Ht.
    apply list_elem_of_singleton in Hin. subst user. reflexivity.
Defined.

Lemma recovery_unknown_address_witness :
  ∃ s', AuthController.recovery Sample.quiet 1 Sample.recover_nobody Sample.with_al
        = Ok tt s'
        ∧ db s' = db Sample.with_al.
Proof.
  destruct (recovery_unknown_address Sample.quiet 1 Sample.recover_nobody Sample.with_al)
    as (s' & Hrun & _ & Hdb).
  - reflexivity.
  - intros H. vm_compute in H. discriminate.
  - apply al_only. intros H. vm_compute in H. discriminate.
  - exists s'. split; [exact Hrun|exact Hdb].
Defined.

Lemma recovery_then_verify_witness :
  ∃ s1 s2,
    AuthController.recovery Sample.quiet 1 Sample.recover_al Sample.with_al = Ok tt s1
    ∧ AuthController.verifyRecovery Sample.quiet Sample.verify_t0 (elapse 3600 s1)
      = Ok tt s2
    ∧ responses (since (elapse 3600 s1) s2) = [ESend 400 GenericError].
Proof.
  destruct (recovery_then_verify Sample.quiet 0 Sample.recover_al Sample.verify_t0
              Sample.with_al 3600) as (s1 & s2 & Hrun & Hnext & _ & Hresp).
  - exact quiet_no_faults.
  - apply NoDup_nil_2.
  - intros H. vm_compute in H. discriminate.
  - exists Sample.al. split; [apply list_elem_of_here|vm_compute; reflexivity].
  - reflexivity.
  - reflexivity.
  - exists s1, s2. split; [exact Hrun|split; [exact Hnext|exact Hresp]].
Defined.

Lemma signup_then_verify_witness :
  ∃ s1 s2,
    AuthController.signup Sample.quiet 3 Sample.signup_al Sample.empty = Ok tt s1
    ∧ AuthController.verify Sample.quiet Sample.verify_t0 s1 = Ok tt s2
    ∧ DB.tokens (DB.committed (db s2)) = [].
Proof.
  destruct (signup_then_verify Sample.quiet 2 Sample.signup_al Sample.verify_t0
              Sample.empty "p") as (s1 & s2 & Hrun & Hnext & _ & _ & Ht).
  - exact quiet_no_faults.
  - reflexivity.
  - apply NoDup_nil_2.
  - intros H. vm_compute in H. discriminate.
  - intros H. vm_compute in H. discriminate.
  - intros H. vm_compute in H. discriminate.
  - vm_compute. reflexivity.
  - reflexivity.
  - reflexivity.
  - reflexivity.
  - reflexivity.
  - exists s1, s2. split; [exact Hrun|split; [exact Hnext|exact Ht]].
Defined.

Lemma signin_rejects_alike_witness :
  ∃ s1' s2',
    Session.signin Sample.quiet Cases.matches "Invalid login" (Cases.signin_as "bob" "p")
      Sample.with_al = Ok tt s1'
    ∧ Session.signin Sample.quiet Cases.matches "Invalid login" (Cases.signin_as "al" "q")
        Sample.with_al = Ok tt s2'
    ∧ responses (since Sample.with_al s2') = responses (since Sample.with_al s1').
Proof.
  destruct (signin_rejects_alike Sample.quiet Cases.matches "Invalid login"
              (Cases.signin_as "bob" "p") (Cases.signin_as "al" "q")
              Sample.with_al Sample.with_al "p" "q")
    as (s1' & s2' & Hr1 & Hr2 & _ & Hsame & _).
  - reflexivity.
  - reflexivity.
  - intros H. vm_compute in H. discriminate.
  - intros H. vm_compute in H. discriminate.
  - vm_compute. reflexivity.
  - vm_compute. reflexivity.
  - apply al_only. intros H. vm_compute in H. discriminate.
  - exists Sample.al. split; [apply list_elem_of_here|vm_compute; reflexivity].
  - apply (al_only (λ user, _ → ∃ h, get user "password" = VStr h ∧ _)).
    intros _. exists "#p". split; vm_compute; reflexivity.
  - exists s1', s2'. split; [exact Hr1|split; [exact Hr2|exact Hsame]].
Defined.

Lemma signin_accepts_witness :
  ∃ s', Session.signin Sample.quiet Cases.matches "Invalid login"
          (Cases.signin_as "al" "p") Sample.with_al = Ok tt s'
        ∧ responses (since Sample.with_al s')
          = [ECookie "session"; ESend 200 (TokenBody "session")].
Proof.
  destruct (signin_accepts Sample.quiet Cases.matches "Invalid login"
              (Cases.signin_as "al" "p") Sample.with_al "p")
    as (s' & user & Hrun & _ & _ & Hresp & _).
  - reflexivity.
  - intros H. vm_compute in H. discriminate.
  - vm_compute. reflexivity.
  - exists Sample.al. split; [apply list_elem_of_here|vm_compute; reflexivity].
  - apply (al_only (λ user, _ → ∃ h, get user "password" = VStr h ∧ _)).
    intros _. exists "#p". split; vm_compute; reflexivity.
  - exists s'. split; [exact Hrun|exact Hresp].
Defined.

Lemma getUser_answers_witness :
  Directory.getUser Sample.quiet Cases.read_al_by_eve Sample.with_al
  = Ok (Directory.mkReply 400 Directory.JGeneric) Sample.with_al
  ∧ ∃ s', Directory.getUser Sample.quiet Cases.read_al Sample.with_al
          = Ok (Directory.mkReply 200
                  (Directory.JProfile (VStr "a@x.com") (VStr "al") (VStr "Al"))) s'.
Proof.
  split.
  - apply (getUser_answers Sample.quiet Cases.read_al_by_eve Sample.with_al).
    intros H. vm_compute in H. discriminate.
  - destruct (getUser_answers Sample.quiet Cases.read_al Sample.with_al) as [_ Hown].
    destruct Hown as (reply & s' & Hrun & _ & _ & Hfound); [reflexivity|reflexivity|].
    destruct Hfound as (user & Hin & _ & Hreply); [exact (al_owns [])|].
    apply list_elem_of_singleton in Hin. subst user. rewrite Hreply in Hrun.
    exists s'. exact Hrun.
Defined.

Lemma updateUser_unauthorized_witness :
  ∃ s', UserController.updateUser Cases.store_down Cases.rename_by_eve Sample.with_al
        = Ok tt s'
        ∧ db s' = db Sample.with_al.
Proof.
  destruct (updateUser_unauthorized Cases.store_down Cases.rename_by_eve Sample.with_al)
    as (s' & Hrun & _ & Hdb).
  - intros H. vm_compute in H. discriminate.
  - discriminate.
  - exists s'. split; [exact Hrun|exact Hdb].
Defined.

Lemma updateUser_refreshes_without_update_witness :
  ∃ s', UserController.updateUser Sample.quiet Cases.rename_by_eve Sample.with_al
        = Ok tt s'
        ∧ db s' = db Sample.with_al
        ∧ responses (since Sample.with_al s')
          = [ECookie "session'"; ESend 200 (NewTokenBody "session'")].
Proof.
  destruct (updateUser_refreshes_without_update Sample.quiet Cases.rename_by_eve
              Sample.with_al) as (s' & Hrun & Hdb & Hresp & _).
  - exact quiet_no_faults.
  - left. reflexivity.
  - intros H. vm_compute in H. discriminate.
  - discriminate.
  - reflexivity.
  - exists s'. split; [exact Hrun|split; [exact Hdb|exact Hresp]].
Defined.

Lemma signup_duplicate_witness :
  ∃ s', AuthController.signup Sample.quiet 3 Sample.signup_al Sample.with_al = Ok tt s'
        ∧ responses (since Sample.with_al s') = [ESend 500 GenericError]
        ∧ db s' = db Sample.with_al.
Proof.
  destruct (signup_duplicate Sample.quiet 3 Sample.signup_al Sample.with_al "p")
    as (s' & Hrun & Hresp & _ & _ & Hdb).
  - exact quiet_no_faults.
  - reflexivity.
  - intros H. vm_compute in H. discriminate.
  - intros H. vm_compute in H. discriminate.
  - intros H. vm_compute in H. discriminate.
  - vm_compute. reflexivity.
  - left. vm_compute. reflexivity.
  - exists s'. split; [exact Hrun|split; [exact Hresp|exact Hdb]].
Defined.

Lemma expired_token_kept_witness :
  ∃ s', AuthController.processRecovery Sample.quiet Sample.reset_r0 Cases.late = Ok tt s'
        ∧ responses (since Cases.late s') = [ESend 400 GenericError]
        ∧ db s' = db Cases.late.
Proof.
  destruct (expired_token_kept Sample.quiet Sample.reset_r0 Cases.late Sample.reset 0)
    as [_ Hprocess].
  - exact quiet_no_faults.
  - exact with_reset_unique.
  - exact with_reset_issued.
  - reflexivity.
  - vm_compute. discriminate.
  - intros H. vm_compute in H. discriminate.
  - exact Hprocess.
Defined.

Lemma verify_never_expires_witness :
  ∃ s', AuthController.verify Sample.quiet Sample.verify_t0
          (elapse 1000000000 Sample.with_taken) = Ok tt s'
        ∧ responses (since (elapse 1000000000 Sample.with_taken) s')
          = [ERedirect "/login"].
Proof.
  destruct (verify_never_expires Sample.quiet Sample.verify_t0 Sample.with_taken
              Sample.taken 1000000000) as (s' & Hrun & Hresp & _).
  - exact quiet_no_faults.
  - exact with_taken_unique.
  - split; [apply list_elem_of_here|split; vm_compute; reflexivity].
  - exact (al_owns [Sample.taken]).
  - exists s'. split; [exact Hrun|exact Hresp].
Defined.

Lemma updateUser_effect_witness :
  ∃ s', UserController.updateUser Sample.quiet Sample.rename_bob Sample.with_al = Ok tt s'
        ∧ DB.users (DB.committed (db s')) = [<["username" := VStr "bob"]> Sample.al].
Proof.
  destruct (updateUser_effect Sample.quiet Sample.rename_bob Sample.with_al)
    as (s' & Hrun & Hu & _).
  - exact quiet_no_faults.
  - left. reflexivity.
  - exists s'. split; [exact Hrun|]. rewrite Hu. vm_compute. reflexivity.
Defined.

Lemma deleteUser_then_getUser_witness :
  ∃ s1 s2,
    UserController.deleteUser Sample.quiet Sample.delete_al Sample.with_al = Ok tt s1
    ∧ Directory.getUser Sample.quiet Cases.read_al s1
      = Ok (Directory.mkReply 404 Directory.JNotFound) s2.
Proof.
  destruct (deleteUser_then_getUser Sample.quiet Sample.delete_al Cases.read_al
              Sample.with_al) as (s1 & s2 & Hrun & Hnext & _).
  - exact quiet_no_faults.
  - reflexivity.
  - reflexivity.
  - exists s1, s2. split; [exact Hrun|exact Hnext].
Defined.

Lemma directory_read_only_witness :
  (∃ s', Directory.getUsers Cases.store_down Cases.read_al Sample.with_al
         = Ok (Directory.mkReply 500 Directory.JGeneric) s')
  ∧ (∃ s', Directory.getUsers Sample.quiet Cases.read_al Sample.with_al
           = Ok (Directory.mkReply 200 (Directory.JUsers [Sample.al])) s').
Proof.
  split.
  - destruct (directory_read_only Cases.store_down Cases.read_al Sample.with_al)
      as [_ (reply & s' & Hrun & _ & _ & Hfail)].
    destruct (Hfail (VStr "57P01")) as [Hreply _]; [reflexivity|].
    rewrite Hreply in Hrun. exists s'. exact Hrun.
  - destruct (directory_read_only Sample.quiet Cases.read_al Sample.with_al)
      as [_ (reply & s' & Hrun & _ & Hok & _)].
    destruct Hok as [Hreply _]; [reflexivity|].
    rewrite Hreply in Hrun. exists s'. exact Hrun.
Defined.

(** * The recovery flow, in full *)

Section RecoveryFlow.

Context (E : Collaborators).

(** The process step that redeems, with the calls it makes. *)
Lemma processRecovery_calls (req : Request) (s : State) (token : Obj) (t : Z) (p : string) :
  no_faults E →
  unique_tokens (DB.committed (db s)) →
  issued (DB.committed (db s)) token (params_token req) Password →
  get token "created_at" = VNum t →
  clock s - t < TTL E →
  get (body req) "password" = VStr p →
  has_user (DB.committed (db s)) (get token "user_id") →
  ∃ s', AuthController.processRecovery E req s = Ok tt s'
        ∧ calls (since s s')
          = [TokenFind (token_filter (params_token req) Password);
             UserFind (of_arrays ["user_id"] [get token "user_id"]);
             UserSetAttributes (get token "user_id")
               (of_arrays ["password"] [VStr (bcrypt_hash E p)]);
             TokenDelete (VStr (params_token req))].
Proof.
  intros Hnf Hu Hi Hc Hage Hp Hown.
  destruct (find_user _ _ Hown) as (user & rest & Hfind & Hid).
  unfold AuthController.processRecovery, Token_findTokens, isPasswordTokenExpired,
    User_findUsers, User_setAttributes, Token_deleteToken, bcrypt.
  rewrite Hp. monad. filters. calm Hnf. unfold DB.view.
  rewrite (find_issued _ _ _ _ Hu Hi). rewrite Hc. calm Hnf.
  rewrite (proj2 (Z.ltb_lt _ _) Hage). cbn [negb]. calm Hnf.
  rewrite Hfind. calm Hnf.
  eexists. split; [reflexivity|]. explicit_since. reflexivity.
Qed.

(** The process step on a token of the age TTL or more. *)
Lemma processRecovery_refused (req : Request) (s : State) (token : Obj) (t : Z) (p : string) :
  no_faults E →
  unique_tokens (DB.committed (db s)) →
  issued (DB.committed (db s)) token (params_token req) Password →
  get token "created_at" = VNum t →
  TTL E ≤ clock s - t →
  get (body req) "password" = VStr p →
  ∃ s', AuthController.processRecovery E req s = Ok tt s'
        ∧ since s s' = [ECall (TokenFind (token_filter (params_token req) Password));
                        ESend 400 GenericError]
        ∧ db s' = db s.
Proof.
  intros Hnf Hu Hi Hc Hage Hp.
  assert (Hold : (clock s - t <? TTL E) = false) by (by apply Z.ltb_ge).
  unfold AuthController.processRecovery, Token_findTokens, isPasswordTokenExpired.
  rewrite Hp. monad. filters. calm Hnf. unfold DB.view.
  rewrite (find_issued _ _ _ _ Hu Hi). rewrite Hc. calm Hnf. rewrite Hold. cbn [negb].
  eexists. split; [reflexivity|]. split; [explicit_since; reflexivity|]. by state.
Qed.

(** C5: a password token is redeemed, at the verify step and at the
    process step, exactly while [now - createdAt < TTL]; from the age TTL
    on, and so at exactly TTL, both steps answer 400 with the generic
    message.  Redeeming is pinned by what the step does.  The verify step
    redirects to the password page of the token and never changes the
    database.  The process step, below TTL, looks the token and its owner
    up, sets the password of the owner's rows to the hash of the new
    password, removes the rows of the token value and answers with a
    session credential of the owner, as a cookie and in the body; from
    TTL on it makes the token lookup only, answers 400 and leaves the
    database, the token included, as it was. *)
Theorem password_token_ttl (req : Request) (s : State) (token : Obj) (t : Z) (p : string) :
  no_faults E →
  unique_tokens (DB.committed (db s)) →
  issued (DB.committed (db s)) token (params_token req) Password →
  get token "created_at" = VNum t →
  get (body req) "password" = VStr p →
  has_user (DB.committed (db s)) (get token "user_id") →
  (∃ s', AuthController.verifyRecovery E req s = Ok tt s'
         ∧ (responses (since s s') = [ERedirect ("/recover/" +:+ params_token req)]
            ↔ clock s - t < TTL E)
         ∧ (TTL E ≤ clock s - t → responses (since s s') = [ESend 400 GenericError])
         ∧ calls (since s s') = [TokenFind (token_filter (params_token req) Password)]
         ∧ db s' = db s)
  ∧ (∃ s', AuthController.processRecovery E req s = Ok tt s'
         ∧ ((∃ authToken, responses (since s s')
                          = [ECookie authToken; ESend 200 (TokenBody authToken)])
            ↔ clock s - t < TTL E)
         ∧ (TTL E ≤ clock s - t → responses (since s s') = [ESend 400 GenericError])
         ∧ (clock s - t < TTL E →
            (∃ user, user ∈ DB.users (DB.committed (db s))
                     ∧ get user "user_id" = get token "user_id"
                     ∧ responses (since s s')
                       = [ECookie (generateUserAuthToken E user req);
                          ESend 200 (TokenBody (generateUserAuthToken E user req))])
            ∧ calls (since s s')
              = [TokenFind (token_filter (params_token req) Password);
                 UserFind (of_arrays ["user_id"] [get token "user_id"]);
                 UserSetAttributes (get token "user_id")
                   (of_arrays ["password"] [VStr (bcrypt_hash E p)]);
                 TokenDelete (VStr (params_token req))]
            ∧ DB.users (DB.committed (db s'))
              = map (λ row, if strict_eq (get row "user_id") (get token "user_id")
                            then <["password" := VStr (bcrypt_hash E p)]> row else row)
                  (DB.users (DB.committed (db s)))
            ∧ DB.tokens (DB.committed (db s'))
              = List.filter
                  (λ row, negb (strict_eq (get row "token") (VStr (params_token req))))
                  (DB.tokens (DB.committed (db s)))
            ∧ DB.tx (db s') = DB.tx (db s))
         ∧ (TTL E ≤ clock s - t →
            calls (since s s') = [TokenFind (token_filter (params_token req) Password)]
            ∧ db s' = db s)).
Proof.
  intros Hnf Hu Hi Hc Hp Hown. split.
  - destruct (verifyRecovery_run E req s token t Hnf Hu Hi Hc) as (s' & Hrun & Hdb & Hout).
    exists s'. split; [done|]. rewrite Hout.
    destruct (Z.ltb_spec (clock s - t) (TTL E)); simpl.
    + split; [done|]. split; [lia|done].
    + split; [split; [done|lia]|done].
  - destruct (Z.lt_ge_cases (clock s - t) (TTL E)) as [Hage|Hage].
    + destruct (processRecovery_effect E req s token t p Hnf Hu Hi Hc Hage Hp Hown)
        as (s' & user & Hrun & Hin & Hid & Hresp & Hus & Htk & Htx & _).
      destruct (processRecovery_calls req s token t p Hnf Hu Hi Hc Hage Hp Hown)
        as (s'' & Hrun' & Hcalls).
      assert (s'' = s') as -> by congruence.
      exists s'. split; [done|].
      split; [split; [done|]; intros _; by eexists|].
      split; [lia|]. split; [|lia]. intros _.
      split; [by exists user|]. split; [done|]. split; [done|]. split; [|done].
      rewrite Htk. reflexivity.
    + destruct (processRecovery_refused req s token t p Hnf Hu Hi Hc Hage Hp)
        as (s' & Hrun & Hout & Hdb).
      exists s'. split; [done|]. rewrite Hout.
      split; [split; [intros [a Ha]; done|lia]|].
      split; [done|]. split; [lia|done].
Qed.

End RecoveryFlow.

Lemma password_token_ttl_witness :
  (∃ s', AuthController.verifyRecovery Sample.quiet Sample.reset_r0 Sample.with_reset
         = Ok tt s'
         ∧ responses (since Sample.with_reset s') = [ERedirect "/recover/r0"]
         ∧ db s' = db Sample.with_reset)
  ∧ (∃ s', AuthController.processRecovery Sample.quiet Sample.reset_r0 Sample.with_reset
           = Ok tt s'
           ∧ responses (since Sample.with_reset s')
             = [ECookie "session"; ESend 200 (TokenBody "session")]
           ∧ DB.users (DB.committed (db s')) = [<["password" := VStr "#new"]> Sample.al]
           ∧ DB.tokens (DB.committed (db s')) = []).
Proof.
  destruct (password_token_ttl Sample.quiet Sample.reset_r0 Sample.with_reset
              Sample.reset 0 "new")
    as [(s1 & Hrun1 & Hiff & _ & _ & Hdb) (s2 & Hrun2 & _ & _ & Hbelow & _)].
  - exact quiet_no_faults.
  - exact with_reset_unique.
  - exact with_reset_issued.
  - reflexivity.
  - reflexivity.
  - exact (al_owns [Sample.reset]).
  - split.
    + exists s1. split; [exact Hrun1|]. split; [apply Hiff; reflexivity|exact Hdb].
    + destruct Hbelow as ((user & Hin & _ & Hresp) & _ & Hus & Htk & _); [reflexivity|].
      exists s2. split; [exact Hrun2|]. rewrite Hresp, Hus, Htk.
      split; [reflexivity|]. split; reflexivity.
Defined.

Section RecoveryResponses.

Context (E : Collaborators).




End RecoveryResponses.


